(** * Diagram store and mutator: a shallow embedding of [DiagramsService]

    Source: [src/diagrams/diagrams.service.ts].

    Modelling conventions.
    - The two TypeORM repositories are finite maps keyed by primary key;
      [save] writes the whole aggregate under its [id] (an upsert).
    - An [async] method is a computation in the monad [M]: it reads and
      writes the store and either returns a value or throws.  Nothing is
      written before a [throw], exactly as in the source, where [save] is
      always the last statement.
    - A JS object used as a dictionary ([content.elements],
      [content.relations]) is a [gmap string _] of its own properties,
      which is what is stored and sent as JSON. The source reads and
      writes these objects with [o[k]], which goes through the prototype
      chain: [js_get] also finds the members every object inherits from
      [Object.prototype], and [js_set] does what the assignment does at
      ["__proto__"].
    - The built-in objects are as at start-up when a call begins: no
      member of [Object.prototype] has an [attributes] property.
    - An optional property is an [option]; [{...a, ...b}] is the
      field-wise override of [a] by the properties present in [b].
    - The entity and DTO classes are not among the sources; the record
      types below follow the shape the service code reads and writes
      (and the data model of the specification for the leaves): a
      diagram has a content object, attributes are [{name, type}]
      records.
    - [softRemove] marks the row and keeps it; reads through the
      repository skip marked rows.
    - The two listing queries ([findAllByUser], [findShared]) return
      rows in the order of the table scan, which the source leaves to
      the database; their results are only read through membership.
    - [create] is not modelled: what a new row gets for the properties
      its DTO leaves out, and its id, are decided by declarations that
      are not among the sources. *)

From Stdlib Require Import ZArith.
From stdpp Require Import base strings list gmap fin_maps.

Local Open Scope string_scope.

(** ** Data model *)

Record User := mkUser {
  u_id : Z;
  u_name : string;
  u_email : string
}.

(** Coordinates are stored and never computed with. *)
Record Position := mkPosition { pos_x : Z; pos_y : Z }.

Record Attribute := mkAttribute { attr_name : string; attr_type : string }.

(** [newData: { name?: string; type?: string }] of [updateAttribute]. *)
Record AttributePatch := mkAttributePatch {
  ap_name : option string;
  ap_type : option string
}.

(** An element record as it can occur in [content.elements]: each of
    the three documented properties may be missing, because
    [updateElement] builds records by spreading partial data. It is also
    the type of [elementData]. *)
Record Element := mkElement {
  el_name : option string;
  el_position : option Position;
  el_attributes : option (list Attribute)
}.

(** [classData: { name; position; attributes? }] of [addClass]. *)
Record ClassData := mkClassData {
  cd_name : string;
  cd_position : Position;
  cd_attributes : option (list Attribute)
}.

(** [relationData: { from; to; type }] of [addRelation]. *)
Record RelationData := mkRelationData {
  rd_from : string;
  rd_to : string;
  rd_type : string
}.

(** A relation record as it can occur in [content.relations]: a
    property may be missing, because [updateRelation] builds records by
    spreading partial data. *)
Record Relation := mkRelation {
  rel_from : option string;
  rel_to : option string;
  rel_type : option string
}.

(** [Partial<{ from; to; type }>] of [updateRelation]. *)
Record RelationPatch := mkRelationPatch {
  rp_from : option string;
  rp_to : option string;
  rp_type : option string
}.

(** [diagram.content]: both maps are absent until first written. *)
Record Content := mkContent {
  elements : option (gmap string Element);
  relations : option (gmap string Relation)
}.

Record Diagram := mkDiagram {
  d_id : Z;
  d_name : string;
  owner : User;
  sharedWith : list User;
  content : Content;
  deleted : bool
}.

(** The object handed to [update]. [Object.assign] copies every own
    property the object carries, so each property of a diagram is
    representable here; the DTO class only declares some of them. *)
Record DiagramDto := mkDiagramDto {
  dto_id : option Z;
  dto_name : option string;
  dto_owner : option User;
  dto_sharedWith : option (list User);
  dto_content : option Content;
  dto_deleted : option bool
}.

(** A diagram as [find] hydrates it with [relations: ['owner']]: the
    [sharedWith] relation is not loaded. *)
Record OwnedDiagram := mkOwnedDiagram {
  od_id : Z;
  od_name : string;
  od_owner : User;
  od_content : Content;
  od_deleted : bool
}.

Record Store := mkStore {
  diagramsRepository : gmap Z Diagram;
  usersRepository : gmap Z User
}.

(** ** Exceptions and the service monad *)

Inductive Exception :=
  | NotFoundException (msg : string)
  | ForbiddenException (msg : string)
  | Error (msg : string).

Inductive Result (A : Type) :=
  | Ok (a : A)
  | Err (e : Exception).
Arguments Ok {A} a.
Arguments Err {A} e.

Definition M (A : Type) : Type := Store → Result A * Store.

Definition ret {A} (a : A) : M A := λ s, (Ok a, s).

Definition throw {A} (e : Exception) : M A := λ s, (Err e, s).

Definition bind {A B} (m : M A) (k : A → M B) : M B :=
  λ s, match m s with
       | (Ok a, s') => k a s'
       | (Err e, s') => (Err e, s')
       end.

Notation "'let!' x ':=' m 'in' k" := (bind m (λ x, k))
  (at level 10, x name, m at level 100, k at level 200, only parsing).

(** ** Small JS helpers *)

(** One property of [{...old, ...new}]. *)
Definition override {A} (new old : option A) : option A :=
  match new with
  | Some v => Some v
  | None => old
  end.

(** [arr[i]] for a JS number [i] that is an integer. *)
Definition at_index {A} (arr : list A) (i : Z) : option A :=
  if (i <? 0)%Z then None else arr !! Z.to_nat i.

(** [arr.splice(start, 1)]: a negative [start] counts from the end, a
    [start] past the end removes nothing. *)
Definition splice1 {A} (start : Z) (arr : list A) : list A :=
  let len := Z.of_nat (length arr) in
  let k := if (start <? 0)%Z then Z.max (len + start) 0 else Z.min start len in
  delete (Z.to_nat k) arr.

(** [arr[i] = v] for an index that the caller has found occupied. *)
Definition set_index {A} (arr : list A) (i : Z) (v : A) : list A :=
  if (i <? 0)%Z then arr else <[Z.to_nat i := v]> arr.

(** The names of the members of [Object.prototype], which every plain
    object inherits: eleven functions and the accessor [__proto__]. All
    of them read as truthy values without own enumerable properties. *)
Definition inherited_names : list string :=
  ["constructor"; "__defineGetter__"; "__defineSetter__"; "hasOwnProperty";
   "__lookupGetter__"; "__lookupSetter__"; "isPrototypeOf";
   "propertyIsEnumerable"; "toString"; "valueOf"; "__proto__";
   "toLocaleString"].

Definition inherited (k : string) : bool := bool_decide (k ∈ inherited_names).

(** What [o[k]] reads in a plain object [o]: an own property, or a
    member of [Object.prototype]. *)
Inductive Member (A : Type) :=
  | Own (a : A)
  | Builtin.
Arguments Own {A} a.
Arguments Builtin {A}.

(** [o[k]]: [None] is [undefined]. *)
Definition js_get {A} (o : gmap string A) (k : string) : option (Member A) :=
  match o !! k with
  | Some a => Some (Own a)
  | None => if inherited k then Some Builtin else None
  end.

(** [o[k] = v]: at ["__proto__"], unless it is an own property, the
    assignment runs the inherited setter, which changes the prototype of
    [o] and adds no property. *)
Definition js_set {A} (o : gmap string A) (k : string) (v : A) : gmap string A :=
  match o !! k with
  | Some _ => <[k := v]> o
  | None => if bool_decide (k = "__proto__") then o else <[k := v]> o
  end.

(** Setters for the properties the service assigns. *)
Definition set_content (d : Diagram) (c : Content) : Diagram :=
  mkDiagram (d_id d) (d_name d) (owner d) (sharedWith d) c (deleted d).

Definition set_sharedWith (d : Diagram) (l : list User) : Diagram :=
  mkDiagram (d_id d) (d_name d) (owner d) l (content d) (deleted d).

Definition set_deleted (d : Diagram) (b : bool) : Diagram :=
  mkDiagram (d_id d) (d_name d) (owner d) (sharedWith d) (content d) b.

Definition set_elements (d : Diagram) (es : gmap string Element) : Diagram :=
  set_content d (mkContent (Some es) (relations (content d))).

Definition set_relations (d : Diagram) (rs : gmap string Relation) : Diagram :=
  set_content d (mkContent (elements (content d)) (Some rs)).

(** The record stored under [k] in the elements map and in the
    relations map: the own property, if there is one. *)
Definition element_at (d : Diagram) (k : string) : option Element :=
  match elements (content d) with
  | Some es => es !! k
  | None => None
  end.

Definition relation_at (d : Diagram) (k : string) : option Relation :=
  match relations (content d) with
  | Some rs => rs !! k
  | None => None
  end.

(** [diagram.content.elements?.[k]] and [diagram.content.relations?.[k]]
    as the source reads them. *)
Definition element_get (d : Diagram) (k : string) : option (Member Element) :=
  match elements (content d) with
  | Some es => js_get es k
  | None => None
  end.

Definition relation_get (d : Diagram) (k : string) : option (Member Relation) :=
  match relations (content d) with
  | Some rs => js_get rs k
  | None => None
  end.

(** [{...m}] for what [o[k]] has read: a member of [Object.prototype]
    and [undefined] both spread to the empty object. *)
Definition spread_element (m : option (Member Element)) : Element :=
  match m with
  | Some (Own e) => e
  | _ => mkElement None None None
  end.

Definition spread_relation (m : option (Member Relation)) : Relation :=
  match m with
  | Some (Own r) => r
  | _ => mkRelation None None None
  end.

(** [Object.assign(diagram, dto)]. *)
Definition assign (d : Diagram) (dto : DiagramDto) : Diagram :=
  mkDiagram (default (d_id d) (dto_id dto))
            (default (d_name d) (dto_name dto))
            (default (owner d) (dto_owner dto))
            (default (sharedWith d) (dto_sharedWith dto))
            (default (content d) (dto_content dto))
            (default (deleted d) (dto_deleted dto)).

(** [{...old, ...elementData}]. *)
Definition merge_element (old data : Element) : Element :=
  mkElement (override (el_name data) (el_name old))
            (override (el_position data) (el_position old))
            (override (el_attributes data) (el_attributes old)).

Definition empty_element : Element := mkElement None None None.

Definition merge_attribute (old : Attribute) (data : AttributePatch) : Attribute :=
  mkAttribute (default (attr_name old) (ap_name data))
              (default (attr_type old) (ap_type data)).

Definition merge_relation (old : Relation) (data : RelationPatch) : Relation :=
  mkRelation (override (rp_from data) (rel_from old))
             (override (rp_to data) (rel_to old))
             (override (rp_type data) (rel_type old)).

(** The record [addRelation] stores: all three properties are given. *)
Definition relation_of (data : RelationData) : Relation :=
  mkRelation (Some (rd_from data)) (Some (rd_to data)) (Some (rd_type data)).

(** ** Repository primitives *)

(** [diagramsRepository.findOne({ where: { id }, relations })]: rows
    marked by [softRemove] are not returned. *)
Definition repo_findOne (id : Z) : M (option Diagram) :=
  λ s, (Ok (match diagramsRepository s !! id with
            | Some d => if deleted d then None else Some d
            | None => None
            end), s).

(** [usersRepository.findOneBy({ id })]. *)
Definition users_findOneBy (id : Z) : M (option User) :=
  λ s, (Ok (usersRepository s !! id), s).

(** [diagramsRepository.save(diagram)]. The row keeps the list of
    shared users as given; the table behind it keeps one membership per
    user, so the two agree as long as no user is listed twice. *)
Definition save (d : Diagram) : M Diagram :=
  λ s, (Ok d, mkStore (<[d_id d := d]> (diagramsRepository s))
                      (usersRepository s)).

(** [diagramsRepository.softRemove(diagram)]. *)
Definition softRemove (d : Diagram) : M Diagram :=
  save (set_deleted d true).

(** In-place updates of the nested objects. They are only reached after
    a guard has found the object, so the absent case changes nothing. *)
Definition with_elements (d : Diagram)
    (f : gmap string Element → gmap string Element) : Diagram :=
  match elements (content d) with
  | Some es => set_elements d (f es)
  | None => d
  end.

Definition with_relations (d : Diagram)
    (f : gmap string Relation → gmap string Relation) : Diagram :=
  match relations (content d) with
  | Some rs => set_relations d (f rs)
  | None => d
  end.

Definition set_attributes (e : Element) (l : list Attribute) : Element :=
  mkElement (el_name e) (el_position e) (Some l).

(** ** The service *)

Module DiagramsService.

(** The rows a query sees: soft-removed rows are skipped. *)
Definition visible_rows (s : Store) : list Diagram :=
  List.filter (λ d, negb (deleted d)) (map_to_list (diagramsRepository s)).*2.

Definition without_sharedWith (d : Diagram) : OwnedDiagram :=
  mkOwnedDiagram (d_id d) (d_name d) (owner d) (content d) (deleted d).

(** [find({ where: [{ owner: { id: userId } }], relations: ['owner'] })]. *)
Definition findAllByUser (userId : Z) : M (list OwnedDiagram) :=
  λ s, (Ok (without_sharedWith <$>
              List.filter (λ d, bool_decide (u_id (owner d) = userId))
                          (visible_rows s)), s).

(** The query builder joins [sharedWith] and keeps the joined rows with
    [sharedWith.id = :userId]: a diagram is returned when it has such a
    member, and is hydrated with those members only. *)
Definition findShared (userId : Z) : M (list Diagram) :=
  λ s, (Ok (omap (λ d,
              match List.filter (λ u, bool_decide (u_id u = userId))
                                (sharedWith d) with
              | [] => None
              | members => Some (set_sharedWith d members)
              end) (visible_rows s)), s).

Definition hasAccess (diagram : Diagram) (user : User) : bool :=
  bool_decide (u_id (owner diagram) = u_id user)
  || existsb (λ u, bool_decide (u_id u = u_id user)) (sharedWith diagram).

Definition findOne (id : Z) (user : User) : M Diagram :=
  let! diagram := repo_findOne id in
  match diagram with
  | None => throw (NotFoundException "Diagram not found")
  | Some diagram =>
      if negb (hasAccess diagram user)
      then throw (ForbiddenException "Access denied")
      else ret diagram
  end.

Definition update (id : Z) (updateDiagramDto : DiagramDto) (user : User)
    : M Diagram :=
  let! diagram := findOne id user in
  save (assign diagram updateDiagramDto).

Definition remove (id : Z) (user : User) : M Diagram :=
  let! diagram := findOne id user in
  softRemove diagram.

Definition shareDiagram (diagramId userId : Z) (owner_ : User) : M Diagram :=
  let! diagram := findOne diagramId owner_ in
  if negb (bool_decide (u_id (owner diagram) = u_id owner_))
  then throw (ForbiddenException "Only the owner can share the diagram")
  else
    let! userToShare := users_findOneBy userId in
    match userToShare with
    | None => throw (NotFoundException "User to share not found")
    | Some userToShare =>
        save (set_sharedWith diagram (sharedWith diagram ++ [userToShare]))
    end.

Definition updateElement (diagramId : Z) (elementId : string)
    (elementData : Element) (user : User) : M Diagram :=
  let! diagram := findOne diagramId user in
  let es := default ∅ (elements (content diagram)) in
  save (set_elements diagram
          (js_set es elementId
             (merge_element (spread_element (js_get es elementId))
                            elementData))).

Definition moveElement (diagramId : Z) (elementId : string)
    (position : Position) (user : User) : M Diagram :=
  updateElement diagramId elementId (mkElement None (Some position) None) user.

(** When [classId] names a member of [Object.prototype], the guard
    passes and the attribute is pushed onto a list hung on that built-in
    object: the diagram is saved as it was loaded. *)
Definition addAttribute (diagramId : Z) (classId : string)
    (attribute : Attribute) (user : User) : M Diagram :=
  let! diagram := findOne diagramId user in
  match element_get diagram classId with
  | None => throw (NotFoundException "Class not found in diagram")
  | Some (Own classElem) =>
      let attrs := default [] (el_attributes classElem) in
      save (with_elements diagram
              (<[classId := set_attributes classElem (attrs ++ [attribute])]>))
  | Some Builtin => save diagram
  end.

(** A member of [Object.prototype] has no [attributes], so no index is
    found in it. *)
Definition updateAttribute (diagramId : Z) (classId : string) (attrIndex : Z)
    (newData : AttributePatch) (user : User) : M Diagram :=
  let! diagram := findOne diagramId user in
  match element_get diagram classId with
  | Some (Own classElem) =>
      let attrs := default [] (el_attributes classElem) in
      match at_index attrs attrIndex with
      | None => throw (NotFoundException "Attribute not found")
      | Some old =>
          save (with_elements diagram
                  (<[classId :=
                       set_attributes classElem
                         (set_index attrs attrIndex
                                    (merge_attribute old newData))]>))
      end
  | _ => throw (NotFoundException "Attribute not found")
  end.

Definition removeAttribute (diagramId : Z) (classId : string) (attrIndex : Z)
    (user : User) : M Diagram :=
  let! diagram := findOne diagramId user in
  match element_get diagram classId with
  | Some (Own classElem) =>
      let attrs := default [] (el_attributes classElem) in
      match at_index attrs attrIndex with
      | None => throw (NotFoundException "Attribute not found")
      | Some _ =>
          save (with_elements diagram
                  (<[classId :=
                       set_attributes classElem (splice1 attrIndex attrs)]>))
      end
  | _ => throw (NotFoundException "Attribute not found")
  end.

Definition addClass (diagramId : Z) (classId : string) (classData : ClassData)
    (user : User) : M Diagram :=
  let! diagram := findOne diagramId user in
  let es := default ∅ (elements (content diagram)) in
  match js_get es classId with
  | Some _ => throw (Error "Class already exists")
  | None =>
      save (set_elements diagram
              (js_set es classId
                 (mkElement (Some (cd_name classData))
                            (Some (cd_position classData))
                            (Some (default [] (cd_attributes classData))))))
  end.

(** One turn of the loop over [Object.keys(relations)]. *)
Definition cascade_step (classId : string) (rels : gmap string Relation)
    (relId : string) : gmap string Relation :=
  match rels !! relId with
  | Some rel =>
      if bool_decide (rel_from rel = Some classId)
         || bool_decide (rel_to rel = Some classId)
      then delete relId rels
      else rels
  | None => rels
  end.

Definition cascade (classId : string) (rels : gmap string Relation)
    : gmap string Relation :=
  foldl (cascade_step classId) rels (map_to_list rels).*1.

Definition removeClass (diagramId : Z) (classId : string) (user : User)
    : M Diagram :=
  let! diagram := findOne diagramId user in
  match element_get diagram classId with
  | None => throw (Error "Class not found")
  | Some _ =>
      let diagram := with_relations diagram (cascade classId) in
      save (with_elements diagram (delete classId))
  end.

Definition addRelation (diagramId : Z) (relationId : string)
    (relationData : RelationData) (user : User) : M Diagram :=
  let! diagram := findOne diagramId user in
  let rs := default ∅ (relations (content diagram)) in
  match js_get rs relationId with
  | Some _ => throw (Error "Relation already exists")
  | None =>
      save (set_relations diagram
              (js_set rs relationId (relation_of relationData)))
  end.

Definition updateRelation (diagramId : Z) (relationId : string)
    (relationData : RelationPatch) (user : User) : M Diagram :=
  let! diagram := findOne diagramId user in
  match relation_get diagram relationId with
  | None => throw (Error "Relation not found")
  | Some old =>
      save (with_relations diagram
              (λ rs, js_set rs relationId
                       (merge_relation (spread_relation (Some old))
                                       relationData)))
  end.

Definition removeRelation (diagramId : Z) (relationId : string) (user : User)
    : M Diagram :=
  let! diagram := findOne diagramId user in
  match relation_get diagram relationId with
  | None => throw (Error "Relation not found")
  | Some _ => save (with_relations diagram (delete relationId))
  end.

End DiagramsService.

Import DiagramsService.

(** ** Operations on an existing diagram, as one type *)

Inductive Op :=
  | Update (dto : DiagramDto)
  | Remove
  | ShareDiagram (userId : Z)
  | UpdateElement (elementId : string) (elementData : Element)
  | MoveElement (elementId : string) (position : Position)
  | AddAttribute (classId : string) (attribute : Attribute)
  | UpdateAttribute (classId : string) (attrIndex : Z) (newData : AttributePatch)
  | RemoveAttribute (classId : string) (attrIndex : Z)
  | AddClass (classId : string) (classData : ClassData)
  | RemoveClass (classId : string)
  | AddRelation (relationId : string) (relationData : RelationData)
  | UpdateRelation (relationId : string) (relationData : RelationPatch)
  | RemoveRelation (relationId : string).

Definition run (op : Op) (diagramId : Z) (user : User) : M Diagram :=
  match op with
  | Update dto => update diagramId dto user
  | Remove => remove diagramId user
  | ShareDiagram userId => shareDiagram diagramId userId user
  | UpdateElement k data => updateElement diagramId k data user
  | MoveElement k pos => moveElement diagramId k pos user
  | AddAttribute k a => addAttribute diagramId k a user
  | UpdateAttribute k i data => updateAttribute diagramId k i data user
  | RemoveAttribute k i => removeAttribute diagramId k i user
  | AddClass k data => addClass diagramId k data user
  | RemoveClass k => removeClass diagramId k user
  | AddRelation k data => addRelation diagramId k data user
  | UpdateRelation k data => updateRelation diagramId k data user
  | RemoveRelation k => removeRelation diagramId k user
  end.

(** ** Vocabulary of the statements *)

(** [D] is a row of the diagram table, stored under its own id and not
    soft-removed. *)
Definition live (s : Store) (D : Diagram) : Prop :=
  diagramsRepository s !! d_id D = Some D ∧ deleted D = false.

(** Users are identified by id: the controller passes [{ id: user.sub }]. *)
Definition is_owner (D : Diagram) (U : User) : Prop :=
  u_id (owner D) = u_id U.

Definition is_shared (D : Diagram) (U : User) : Prop :=
  ∃ u, u ∈ sharedWith D ∧ u_id u = u_id U.

Definition may_access (D : Diagram) (U : User) : Prop :=
  is_owner D U ∨ is_shared D U.

(** The store after [save d]. *)
Definition saved (d : Diagram) (s : Store) : Store :=
  mkStore (<[d_id d := d]> (diagramsRepository s)) (usersRepository s).

(** Everything of a diagram but its content. *)
Definition same_header (d d' : Diagram) : Prop :=
  d_id d' = d_id d ∧ d_name d' = d_name d ∧ owner d' = owner d ∧
  sharedWith d' = sharedWith d ∧ deleted d' = deleted d.


(** The record at [k], read as the empty object when there is none. *)
Definition element_or_empty (d : Diagram) (k : string) : Element :=
  default empty_element (element_at d k).

(** ** A sample store

    Alice owns diagram 1 and has shared it with Bob; Carol has no access.
    The diagram holds classes A, B and C, with relations R1 (A to B),
    R2 (C to A) and R3 (B to C). *)
Module Sample.

Definition alice : User := mkUser 1 "Alice" "alice@example.org".
Definition bob : User := mkUser 2 "Bob" "bob@example.org".
Definition carol : User := mkUser 3 "Carol" "carol@example.org".

Definition a0 : Attribute := mkAttribute "speed" "number".
Definition a1 : Attribute := mkAttribute "brand" "string".
Definition a2 : Attribute := mkAttribute "year" "number".

Definition classA : Element :=
  mkElement (Some "Car") (Some (mkPosition 0 0)) (Some [a0; a1; a2]).
Definition classB : Element :=
  mkElement (Some "Wheel") (Some (mkPosition 10 0)) (Some []).
Definition classC : Element :=
  mkElement (Some "Garage") (Some (mkPosition 0 10)) (Some []).

Definition R1 : Relation :=
  mkRelation (Some "A") (Some "B") (Some "composition").
Definition R2 : Relation :=
  mkRelation (Some "C") (Some "A") (Some "association").
Definition R3 : Relation :=
  mkRelation (Some "B") (Some "C") (Some "association").

(** Relation data as [addRelation] takes it: one between two classes
    of the diagram, one to an element that is not there. *)
Definition linkAB : RelationData := mkRelationData "A" "B" "association".
Definition linkNowhere : RelationData :=
  mkRelationData "A" "nowhere" "association".

Definition elems : gmap string Element :=
  <["A" := classA]> (<["B" := classB]> (<["C" := classC]> ∅)).
Definition rels : gmap string Relation :=
  <["R1" := R1]> (<["R2" := R2]> (<["R3" := R3]> ∅)).

Definition d1 : Diagram :=
  mkDiagram 1 "Garage model" alice [bob]
            (mkContent (Some elems) (Some rels)) false.

(** A diagram whose content has neither map yet. *)
Definition d2 : Diagram :=
  mkDiagram 2 "Blank" alice [] (mkContent None None) false.

Definition store : Store :=
  mkStore (<[1%Z := d1]> (<[2%Z := d2]> ∅))
          (<[1%Z := alice]> (<[2%Z := bob]> (<[3%Z := carol]> ∅))).

(** A third diagram, owned by Carol and shared with nobody, and the
    store that also holds it. *)
Definition d3 : Diagram :=
  mkDiagram 3 "Private" carol [] (mkContent None None) false.

Definition store3 : Store :=
  mkStore (<[3%Z := d3]> (diagramsRepository store)) (usersRepository store).

End Sample.

(** ** Vocabulary of the cascade and of the owner invariant *)

Definition references (rel : Relation) (classId : string) : Prop :=
  rel_from rel = Some classId ∨ rel_to rel = Some classId.

(** What the loop over the relations leaves of one entry. *)
Definition kept (classId : string) (o : option Relation) : option Relation :=
  match o with
  | Some rel =>
      if bool_decide (rel_from rel = Some classId)
         || bool_decide (rel_to rel = Some classId)
      then None else Some rel
  | None => None
  end.

(** The owner property an operation's input carries, if any. *)
Definition patch_owner (op : Op) : option User :=
  match op with
  | Update dto => dto_owner dto
  | _ => None
  end.

(** The owner invariant as the specification words it: after any
    operation on a stored diagram, the returned diagram has the owner the
    diagram had before. *)
Definition owner_never_changes : Prop :=
  ∀ (op : Op) (s : Store) (D : Diagram) (U : User) (d' : Diagram) (s' : Store),
    live s D → run op (d_id D) U s = (Ok d', s') → owner d' = owner D.

(** ** Four sentences of the specification, as it words them

    Each is stated here for every key of the dictionary; the theorems
    below settle at which keys the service does it. *)

(** [removeClass] with a [classId] that is not in the elements map
    fails. *)
Definition absent_class_is_rejected : Prop :=
  ∀ (s : Store) (D : Diagram) (U : User) (classId : string),
    live s D → may_access D U → element_at D classId = None →
    ∃ e, removeClass (d_id D) classId U s = (Err e, s).

(** [addClass] with a [classId] that is not in the elements map inserts
    the element. *)
Definition absent_class_is_inserted : Prop :=
  ∀ (s : Store) (D : Diagram) (U : User) (classId : string)
    (classData : ClassData),
    live s D → may_access D U → element_at D classId = None →
    ∃ D', addClass (d_id D) classId classData U s = (Ok D', saved D' s) ∧
          is_Some (element_at D' classId).

(** [updateElement] leaves a record at [elementId], whatever the id. *)
Definition element_record_is_written : Prop :=
  ∀ (s : Store) (D : Diagram) (U : User) (elementId : string)
    (elementData : Element),
    live s D → may_access D U →
    ∃ D', updateElement (d_id D) elementId elementData U s
            = (Ok D', saved D' s) ∧
          is_Some (element_at D' elementId).

(** [moveElement] leaves the new position at [elementId], whatever the
    id. *)
Definition position_is_replaced : Prop :=
  ∀ (s : Store) (D : Diagram) (U : User) (elementId : string)
    (position : Position),
    live s D → may_access D U →
    ∃ D', moveElement (d_id D) elementId position U s = (Ok D', saved D' s) ∧
          element_at D' elementId ≫= el_position = Some position.

(** ** Vocabulary of the frame and integrity properties *)

(** The id property an operation's input carries, if any. *)
Definition patch_id (op : Op) : option Z :=
  match op with
  | Update dto => dto_id dto
  | _ => None
  end.

(** The operations that edit the document of a diagram. *)
Definition is_document_op (op : Op) : Prop :=
  match op with
  | Update _ | Remove | ShareDiagram _ => False
  | _ => True
  end.

Definition is_element_op (op : Op) : Prop :=
  match op with
  | UpdateElement _ _ | MoveElement _ _ | AddAttribute _ _
  | UpdateAttribute _ _ _ | RemoveAttribute _ _ | AddClass _ _ => True
  | _ => False
  end.

Definition is_relation_op (op : Op) : Prop :=
  match op with
  | AddRelation _ _ | UpdateRelation _ _ | RemoveRelation _ => True
  | _ => False
  end.

(** Every relation of the diagram joins two elements of the diagram. *)
Definition well_linked (d : Diagram) : Prop :=
  ∀ r rel, relation_at d r = Some rel →
    (∃ k, rel_from rel = Some k ∧ is_Some (element_at d k)) ∧
    (∃ k, rel_to rel = Some k ∧ is_Some (element_at d k)).

(** The operations that neither write a relation record nor replace the
    content. *)
Definition keeps_links (op : Op) : Prop :=
  match op with
  | AddRelation _ _ | UpdateRelation _ _ => False
  | Update dto => dto_content dto = None
  | _ => True
  end.

(** Rows are stored under their own id. *)
Definition well_keyed (s : Store) : Prop :=
  ∀ k d, diagramsRepository s !! k = Some d → d_id d = k.

(** ** Proof automation *)

Ltac split_run :=
  repeat match goal with
    | |- context [match ?x with _ => _ end] => destruct x eqn:?
    end.

Ltac unfold_service :=
  unfold update, remove, shareDiagram, moveElement, updateElement,
    addAttribute, updateAttribute, removeAttribute, addClass, removeClass,
    addRelation, updateRelation, removeRelation,
    bind, users_findOneBy, throw, softRemove, save.

Ltac unfold_service_in H :=
  unfold update, remove, shareDiagram, moveElement, updateElement,
    addAttribute, updateAttribute, removeAttribute, addClass, removeClass,
    addRelation, updateRelation, removeRelation,
    bind, users_findOneBy, throw, softRemove, save in H.

Ltac split_run_in H :=
  repeat match type of H with
    | context [match ?x with _ => _ end] => destruct x eqn:?
    end.

(** ** Basic facts *)

Section Access.

Lemma hasAccess_true D U : hasAccess D U = true ↔ may_access D U.
Proof.
  unfold hasAccess, may_access, is_owner, is_shared.
  rewrite orb_true_iff, bool_decide_eq_true, existsb_exists.
  split; (intros [H | (u & Hin & Hu)]; [by left | right; exists u]).
  - apply list_elem_of_In in Hin. by apply bool_decide_eq_true in Hu.
  - split; [apply list_elem_of_In | apply bool_decide_eq_true]; assumption.
Qed.

Lemma hasAccess_false D U : hasAccess D U = false ↔ ¬ may_access D U.
Proof.
  rewrite <- hasAccess_true. destruct (hasAccess D U); split; done.
Qed.

Lemma findOne_unfold i U s :
  findOne i U s =
    match diagramsRepository s !! i with
    | None => (Err (NotFoundException "Diagram not found"), s)
    | Some d =>
        if deleted d then (Err (NotFoundException "Diagram not found"), s)
        else if hasAccess d U then (Ok d, s)
        else (Err (ForbiddenException "Access denied"), s)
    end.
Proof.
  unfold findOne, bind, repo_findOne, throw, ret.
  destruct (diagramsRepository s !! i) as [d|]; [|done].
  destruct (deleted d); [done|]. by destruct (hasAccess d U).
Qed.

Lemma findOne_live s D U :
  live s D → may_access D U → findOne (d_id D) U s = (Ok D, s).
Proof.
  intros [Hl Hd] Ha%hasAccess_true.
  by rewrite findOne_unfold, Hl, Hd, Ha.
Qed.

Lemma findOne_denied s D U :
  live s D → ¬ may_access D U →
  findOne (d_id D) U s = (Err (ForbiddenException "Access denied"), s).
Proof.
  intros [Hl Hd] Ha%hasAccess_false.
  by rewrite findOne_unfold, Hl, Hd, Ha.
Qed.

(** [findOne] never writes. *)
Lemma findOne_cases i U s :
  (∃ e, findOne i U s = (Err e, s)) ∨ (∃ d, findOne i U s = (Ok d, s)).
Proof.
  rewrite findOne_unfold.
  destruct (diagramsRepository s !! i) as [d|]; [|eauto].
  destruct (deleted d); [eauto|]. destruct (hasAccess d U); eauto.
Qed.

End Access.

(** [C1] For a stored diagram [D] and a caller [U], [findOne (d_id D) U]
    returns [D] exactly when [U] is the owner of [D] or a member of its
    [sharedWith]; when [U] is neither it fails with Forbidden; and for an
    id under which no diagram is stored it fails with NotFound. *)
Theorem findOne_access (s : Store) (U : User) :
  (∀ D, live s D →
     (findOne (d_id D) U s = (Ok D, s) ↔ is_owner D U ∨ is_shared D U) ∧
     (¬ (is_owner D U ∨ is_shared D U) →
      findOne (d_id D) U s = (Err (ForbiddenException "Access denied"), s))) ∧
  (∀ i, diagramsRepository s !! i = None →
     findOne i U s = (Err (NotFoundException "Diagram not found"), s)).
Proof.
  split.
  - intros D HD. split.
    + split.
      * intros Hok. destruct (hasAccess D U) eqn:Ha.
        -- by apply hasAccess_true.
        -- apply hasAccess_false in Ha.
           rewrite (findOne_denied s D U HD Ha) in Hok. discriminate.
      * apply findOne_live, HD.
    + apply findOne_denied, HD.
  - intros i Hi. by rewrite findOne_unfold, Hi.
Qed.

(** ** Facts about the sample store *)

Lemma sample_d1_live : live Sample.store Sample.d1.
Proof. split; reflexivity. Qed.

Lemma sample_d2_live : live Sample.store Sample.d2.
Proof. split; reflexivity. Qed.

Lemma sample_alice_owns_d1 : is_owner Sample.d1 Sample.alice.
Proof. reflexivity. Qed.

Lemma sample_bob_shares_d1 : is_shared Sample.d1 Sample.bob.
Proof. exists Sample.bob. split; [apply list_elem_of_here | reflexivity]. Qed.

Lemma sample_bob_not_owner_d1 : ¬ is_owner Sample.d1 Sample.bob.
Proof. unfold is_owner. simpl. lia. Qed.

Lemma sample_carol_no_access_d1 : ¬ may_access Sample.d1 Sample.carol.
Proof. apply hasAccess_false. reflexivity. Qed.

(** On the sample store: Alice (owner) and Bob (shared) get diagram 1,
    Carol is refused, and id 7 is not found. *)
Lemma findOne_access_witness :
  findOne 1 Sample.alice Sample.store = (Ok Sample.d1, Sample.store) ∧
  findOne 1 Sample.bob Sample.store = (Ok Sample.d1, Sample.store) ∧
  findOne 1 Sample.carol Sample.store
    = (Err (ForbiddenException "Access denied"), Sample.store) ∧
  findOne 7 Sample.carol Sample.store
    = (Err (NotFoundException "Diagram not found"), Sample.store).
Proof.
  destruct (findOne_access Sample.store Sample.alice) as [Ha _].
  destruct (findOne_access Sample.store Sample.bob) as [Hb _].
  destruct (findOne_access Sample.store Sample.carol) as [Hc Hnone].
  split; [apply (Ha Sample.d1 sample_d1_live); left; exact sample_alice_owns_d1|].
  split; [apply (Hb Sample.d1 sample_d1_live); right; exact sample_bob_shares_d1|].
  split; [|exact (Hnone 7%Z eq_refl)].
  apply (Hc Sample.d1 sample_d1_live). exact sample_carol_no_access_d1.
Defined.

(** ** The cascade of [removeClass] *)

Section Cascade.

Variable classId : string.

Lemma kept_kept o : kept classId (kept classId o) = kept classId o.
Proof.
  destruct o as [rel|]; [|done]. simpl.
  destruct (bool_decide _ || bool_decide _) eqn:E; [done|].
  simpl. by rewrite E.
Qed.

Lemma kept_references rel : references rel classId → kept classId (Some rel) = None.
Proof.
  intros H. simpl.
  replace (bool_decide _ || bool_decide _) with true; [done|].
  symmetry. apply orb_true_iff.
  destruct H; [left | right]; by apply bool_decide_eq_true.
Qed.

Lemma kept_other rel : ¬ references rel classId → kept classId (Some rel) = Some rel.
Proof.
  intros H. simpl.
  destruct (bool_decide _ || bool_decide _) eqn:E; [|done].
  destruct H. apply orb_true_iff in E.
  destruct E as [E|E]; apply bool_decide_eq_true in E; [by left | by right].
Qed.

Lemma cascade_step_lookup rels relId k :
  cascade_step classId rels relId !! k =
    if decide (k = relId) then kept classId (rels !! k) else rels !! k.
Proof.
  unfold cascade_step. destruct (decide (k = relId)) as [->|Hne].
  - destruct (rels !! relId) as [rel|] eqn:E; simpl; [|by rewrite E].
    destruct (bool_decide _ || bool_decide _).
    + apply lookup_delete_eq.
    + done.
  - destruct (rels !! relId) as [rel|]; [|done].
    destruct (bool_decide _ || bool_decide _); [|done].
    by apply lookup_delete_ne.
Qed.

Lemma loop_skips ks : ∀ acc k,
  k ∉ ks → foldl (cascade_step classId) acc ks !! k = acc !! k.
Proof.
  induction ks as [|a ks IH]; intros acc k Hk; [done|].
  apply not_elem_of_cons in Hk as [Hne Hk]. simpl.
  rewrite IH by done. rewrite cascade_step_lookup.
  by destruct (decide (k = a)).
Qed.

Lemma loop_visits ks : ∀ acc k,
  k ∈ ks → foldl (cascade_step classId) acc ks !! k = kept classId (acc !! k).
Proof.
  induction ks as [|a ks IH]; intros acc k Hk; [by apply elem_of_nil in Hk|].
  simpl. destruct (decide (k ∈ ks)) as [Hin|Hout].
  - rewrite IH by done. rewrite cascade_step_lookup.
    destruct (decide (k = a)); [apply kept_kept | done].
  - apply elem_of_cons in Hk as [->|Hk]; [|done].
    rewrite loop_skips by done. rewrite cascade_step_lookup.
    by destruct (decide (a = a)).
Qed.

Lemma cascade_lookup (rels : gmap string Relation) k :
  cascade classId rels !! k = kept classId (rels !! k).
Proof.
  unfold cascade. destruct (rels !! k) as [rel|] eqn:E.
  - rewrite loop_visits; [by rewrite E|].
    apply list_elem_of_fmap. exists (k, rel). split; [done|].
    by apply elem_of_map_to_list.
  - rewrite loop_skips; [by rewrite E|].
    intros ([k' rel] & -> & Hin)%list_elem_of_fmap.
    apply elem_of_map_to_list in Hin. simpl in E. congruence.
Qed.

End Cascade.


(** ** Reading a diagram after an in-place update *)

Section Accessors.

Lemma element_at_set_elements d es k :
  element_at (set_elements d es) k = es !! k.
Proof. done. Qed.

Lemma relation_at_set_elements d es r :
  relation_at (set_elements d es) r = relation_at d r.
Proof. done. Qed.

Lemma relation_at_set_relations d rs r :
  relation_at (set_relations d rs) r = rs !! r.
Proof. done. Qed.

Lemma element_at_set_relations d rs k :
  element_at (set_relations d rs) k = element_at d k.
Proof. done. Qed.

Lemma element_at_with_elements d f k :
  element_at (with_elements d f) k =
    match elements (content d) with
    | Some es => f es !! k
    | None => None
    end.
Proof.
  unfold with_elements, element_at.
  by destruct (elements (content d)) eqn:E; [|rewrite E].
Qed.

Lemma relation_at_with_elements d f r :
  relation_at (with_elements d f) r = relation_at d r.
Proof. unfold with_elements. by destruct (elements (content d)). Qed.

Lemma relation_at_with_relations d f r :
  relation_at (with_relations d f) r =
    match relations (content d) with
    | Some rs => f rs !! r
    | None => None
    end.
Proof.
  unfold with_relations, relation_at.
  by destruct (relations (content d)) eqn:E; [|rewrite E].
Qed.

Lemma element_at_with_relations d f k :
  element_at (with_relations d f) k = element_at d k.
Proof. unfold with_relations. by destruct (relations (content d)). Qed.

Lemma elements_with_relations d f :
  elements (content (with_relations d f)) = elements (content d).
Proof. unfold with_relations. by destruct (relations (content d)). Qed.

Lemma same_header_refl d : same_header d d.
Proof. by repeat split. Qed.

Lemma same_header_set_content d c : same_header d (set_content d c).
Proof. by repeat split. Qed.

Lemma same_header_with_elements d f : same_header d (with_elements d f).
Proof.
  unfold with_elements. destruct (elements (content d));
    [apply same_header_set_content | apply same_header_refl].
Qed.

Lemma same_header_with_relations d f : same_header d (with_relations d f).
Proof.
  unfold with_relations. destruct (relations (content d));
    [apply same_header_set_content | apply same_header_refl].
Qed.

Lemma same_header_trans d1 d2 d3 :
  same_header d1 d2 → same_header d2 d3 → same_header d1 d3.
Proof.
  unfold same_header. intros (?&?&?&?&?) (?&?&?&?&?).
  repeat split; congruence.
Qed.

(** Saving a diagram under the id of a stored one replaces that row. *)
Lemma saved_lookup d s : diagramsRepository (saved d s) !! d_id d = Some d.
Proof. apply lookup_insert_eq. Qed.

Lemma saved_live d s : deleted d = false → live (saved d s) d.
Proof. intros H. split; [apply saved_lookup | done]. Qed.

End Accessors.

(** ** Reading and writing a dictionary *)

Section Dictionary.

Context {A : Type}.
Implicit Types (o : gmap string A) (k : string).

Lemma js_get_own o k a : o !! k = Some a → js_get o k = Some (Own a).
Proof. intros H. unfold js_get. by rewrite H. Qed.

Lemma js_get_undefined o k :
  o !! k = None → inherited k = false → js_get o k = None.
Proof. intros H Hk. unfold js_get. by rewrite H, Hk. Qed.

Lemma js_get_builtin o k :
  o !! k = None → inherited k = true → js_get o k = Some Builtin.
Proof. intros H Hk. unfold js_get. by rewrite H, Hk. Qed.

Lemma js_get_None o k :
  js_get o k = None ↔ o !! k = None ∧ inherited k = false.
Proof.
  unfold js_get. destruct (o !! k); [by split; [|intros []]|].
  destruct (inherited k); by split; [|intros []].
Qed.

Lemma js_set_insert o k v :
  is_Some (o !! k) ∨ k ≠ "__proto__" → js_set o k v = <[k := v]> o.
Proof.
  intros H. unfold js_set. destruct (o !! k) as [a|] eqn:E; [done|].
  destruct H as [[? ?]|H]; [done|]. by rewrite bool_decide_eq_false_2.
Qed.

Lemma js_set_proto o v :
  o !! "__proto__" = None → js_set o "__proto__" v = o.
Proof. intros H. unfold js_set. by rewrite H. Qed.

Lemma js_set_other o k j v : j ≠ k → js_set o k v !! j = o !! j.
Proof.
  intros H. unfold js_set. destruct (o !! k); [by apply lookup_insert_ne|].
  destruct (bool_decide _); [done | by apply lookup_insert_ne].
Qed.

Lemma js_set_keeps o k j v : is_Some (o !! j) → is_Some (js_set o k v !! j).
Proof.
  intros H. destruct (decide (j = k)) as [->|Hne].
  - rewrite js_set_insert by by left. rewrite lookup_insert_eq. eauto.
  - by rewrite js_set_other.
Qed.

End Dictionary.

Lemma proto_inherited : inherited "__proto__" = true.
Proof. reflexivity. Qed.

Lemma not_inherited_not_proto (k : string) :
  inherited k = false → k ≠ "__proto__".
Proof. intros H ->. by rewrite proto_inherited in H. Qed.

Lemma element_get_own (d : Diagram) (k : string) (e : Element) :
  element_at d k = Some e → element_get d k = Some (Own e).
Proof.
  unfold element_at, element_get. destruct (elements (content d)); [|done].
  apply js_get_own.
Qed.

Lemma element_get_undefined (d : Diagram) (k : string) :
  element_at d k = None → inherited k = false → element_get d k = None.
Proof.
  unfold element_at, element_get. destruct (elements (content d)); [|done].
  apply js_get_undefined.
Qed.


Lemma relation_get_own (d : Diagram) (k : string) (r : Relation) :
  relation_at d k = Some r → relation_get d k = Some (Own r).
Proof.
  unfold relation_at, relation_get. destruct (relations (content d)); [|done].
  apply js_get_own.
Qed.

Lemma relation_get_undefined (d : Diagram) (k : string) :
  relation_at d k = None → inherited k = false → relation_get d k = None.
Proof.
  unfold relation_at, relation_get. destruct (relations (content d)); [|done].
  apply js_get_undefined.
Qed.

(** The same reads after [if (!o) o = {}]. *)
Lemma elements_or_empty (d : Diagram) k :
  default ∅ (elements (content d)) !! k = element_at d k.
Proof. unfold element_at. by destruct (elements (content d)). Qed.

Lemma relations_or_empty (d : Diagram) k :
  default ∅ (relations (content d)) !! k = relation_at d k.
Proof. unfold relation_at. by destruct (relations (content d)). Qed.

(** ** Calls by a caller with access to a stored diagram *)

Section Authorized.

Context (s : Store) (D : Diagram) (U : User).
Hypothesis HD : live s D.
Hypothesis HU : may_access D U.

Lemma removeClass_run classId :
  is_Some (element_get D classId) →
  let D' := with_elements (with_relations D (cascade classId))
                          (delete classId) in
  removeClass (d_id D) classId U s = (Ok D', saved D' s).
Proof.
  intros [m Hm]. unfold removeClass, bind.
  by rewrite (findOne_live s D U HD HU), Hm.
Qed.

Lemma removeClass_undefined classId :
  element_get D classId = None →
  removeClass (d_id D) classId U s = (Err (Error "Class not found"), s).
Proof.
  intros Hm. unfold removeClass, bind.
  by rewrite (findOne_live s D U HD HU), Hm.
Qed.

Lemma shareDiagram_not_owner target :
  ¬ is_owner D U →
  shareDiagram (d_id D) target U s =
    (Err (ForbiddenException "Only the owner can share the diagram"), s).
Proof.
  intros Hno. unfold shareDiagram, bind. rewrite (findOne_live s D U HD HU).
  by rewrite bool_decide_eq_false_2.
Qed.

Lemma addClass_taken classId classData :
  is_Some (js_get (default ∅ (elements (content D))) classId) →
  addClass (d_id D) classId classData U s =
    (Err (Error "Class already exists"), s).
Proof.
  intros [m Hm]. unfold addClass, bind. rewrite (findOne_live s D U HD HU).
  by rewrite Hm.
Qed.

Lemma addClass_duplicate classId classData :
  is_Some (element_at D classId) →
  addClass (d_id D) classId classData U s =
    (Err (Error "Class already exists"), s).
Proof.
  intros [e He]. apply addClass_taken.
  rewrite (js_get_own _ _ e); [eauto|]. by rewrite elements_or_empty.
Qed.

Lemma addClass_fresh classId classData :
  element_at D classId = None → inherited classId = false →
  let D' := set_elements D
              (<[classId := mkElement (Some (cd_name classData))
                                      (Some (cd_position classData))
                                      (Some (default [] (cd_attributes classData)))]>
                 (default ∅ (elements (content D)))) in
  addClass (d_id D) classId classData U s = (Ok D', saved D' s).
Proof.
  intros He Hk. unfold addClass, bind. rewrite (findOne_live s D U HD HU).
  rewrite js_get_undefined by by rewrite ?elements_or_empty.
  rewrite js_set_insert; [done|]. right. by apply not_inherited_not_proto.
Qed.

Lemma updateElement_run elementId elementData :
  is_Some (element_at D elementId) ∨ elementId ≠ "__proto__" →
  let D' := set_elements D
              (<[elementId := merge_element (element_or_empty D elementId)
                                            elementData]>
                 (default ∅ (elements (content D)))) in
  updateElement (d_id D) elementId elementData U s = (Ok D', saved D' s).
Proof.
  intros Hk. unfold updateElement, bind. rewrite (findOne_live s D U HD HU).
  rewrite js_set_insert by by rewrite elements_or_empty.
  unfold js_get, element_or_empty. rewrite elements_or_empty.
  destruct (element_at D elementId); [done|].
  by destruct (inherited elementId).
Qed.

Lemma updateElement_proto elementData :
  element_at D "__proto__" = None →
  let D' := set_elements D (default ∅ (elements (content D))) in
  updateElement (d_id D) "__proto__" elementData U s = (Ok D', saved D' s).
Proof.
  intros He. unfold updateElement, bind. rewrite (findOne_live s D U HD HU).
  by rewrite js_set_proto by by rewrite elements_or_empty.
Qed.



Lemma removeAttribute_run classId cls attrs index :
  element_at D classId = Some cls →
  el_attributes cls = Some attrs →
  (0 ≤ index < Z.of_nat (length attrs))%Z →
  let D' := with_elements D
              (<[classId := set_attributes cls
                              (delete (Z.to_nat index) attrs)]>) in
  removeAttribute (d_id D) classId index U s = (Ok D', saved D' s).
Proof.
  intros He Ha Hi. unfold removeAttribute, bind.
  rewrite (findOne_live s D U HD HU), (element_get_own D classId cls He), Ha.
  simpl. unfold at_index. rewrite (proj2 (Z.ltb_ge index 0)) by lia.
  destruct (lookup_lt_is_Some_2 attrs (Z.to_nat index)) as [a Hat]; [lia|].
  rewrite Hat. unfold splice1.
  rewrite (proj2 (Z.ltb_ge index 0)) by lia.
  by rewrite Z.min_l by lia.
Qed.

(** The caller keeps access to what it saves, as long as the header of
    the diagram is unchanged. *)
Lemma header_live D' : same_header D D' → live (saved D' s) D'.
Proof.
  intros (_ & _ & _ & _ & Hdel). apply saved_live.
  rewrite Hdel. apply HD.
Qed.

Lemma header_access D' : same_header D D' → may_access D' U.
Proof.
  intros (_ & _ & Hown & Hsh & _).
  unfold may_access, is_owner, is_shared in *. by rewrite Hown, Hsh.
Qed.

End Authorized.


(** [C2] [removeClass] does not fail for every [classId] that is absent
    from the elements map: the guard reads [elements[classId]] through
    the prototype chain. On the sample diagram, which has no class
    "constructor", Bob's call passes the guard and saves the diagram
    instead of failing with "Class not found". *)
Lemma removeClass_finds_inherited_names :
  live Sample.store Sample.d1 ∧ may_access Sample.d1 Sample.bob ∧
  element_at Sample.d1 "constructor" = None ∧
  removeClass 1 "constructor" Sample.bob Sample.store
    = (Ok Sample.d1, saved Sample.d1 Sample.store) ∧
  ¬ absent_class_is_rejected.
Proof.
  assert (Hrun : removeClass 1 "constructor" Sample.bob Sample.store
                 = (Ok Sample.d1, saved Sample.d1 Sample.store))
    by (vm_compute; reflexivity).
  split; [exact sample_d1_live|].
  split; [exact (or_intror sample_bob_shares_d1)|].
  split; [reflexivity|]. split; [exact Hrun|].
  intros H.
  destruct (H Sample.store Sample.d1 Sample.bob "constructor" sample_d1_live
              (or_intror sample_bob_shares_d1) eq_refl) as [e He].
  change (d_id Sample.d1) with 1%Z in He. rewrite Hrun in He. discriminate He.
Qed.

(** [X25] For a stored diagram [D] and a caller with access,
    [removeClass] fails with the generic error "Class not found" when
    [classId] is not a key of the elements map and is not the name of a
    member every object inherits; when it is a key, the call succeeds
    and saves a diagram [D'] in which the element at [classId] is gone,
    every other element is as before, every relation whose [from] or
    [to] is [classId] is gone, and every other relation is as before (no
    relation is added). *)
Theorem removeClass_cascades (s : Store) (D : Diagram) (U : User)
    (classId : string) :
  live s D → may_access D U →
  (element_at D classId = None → inherited classId = false →
     removeClass (d_id D) classId U s = (Err (Error "Class not found"), s)) ∧
  (is_Some (element_at D classId) →
     ∃ D', removeClass (d_id D) classId U s = (Ok D', saved D' s) ∧
       same_header D D' ∧
       element_at D' classId = None ∧
       (∀ k, k ≠ classId → element_at D' k = element_at D k) ∧
       (∀ r rel, relation_at D r = Some rel → references rel classId →
                 relation_at D' r = None) ∧
       (∀ r rel, relation_at D r = Some rel → ¬ references rel classId →
                 relation_at D' r = Some rel) ∧
       (∀ r, relation_at D r = None → relation_at D' r = None)).
Proof.
  intros HD HU. split.
  - intros He Hk. apply (removeClass_undefined s D U HD HU).
    by apply element_get_undefined.
  - intros [e He]. eexists. split.
    { apply (removeClass_run s D U HD HU).
      rewrite (element_get_own D classId e He). eauto. }
    assert (Hes : ∃ es, elements (content D) = Some es ∧ es !! classId = Some e).
    { unfold element_at in He. destruct (elements (content D)); [eauto|done]. }
    destruct Hes as (es & Hes & Hk).
    assert (Hrel : ∀ r, relation_at (with_elements
                          (with_relations D (cascade classId)) (delete classId)) r
                        = kept classId (relation_at D r)).
    { intros r. rewrite relation_at_with_elements, relation_at_with_relations.
      unfold relation_at. destruct (relations (content D)); [|done].
      apply cascade_lookup. }
    assert (Hel : ∀ k, element_at (with_elements
                          (with_relations D (cascade classId)) (delete classId)) k
                        = delete classId es !! k).
    { intros k. by rewrite element_at_with_elements, elements_with_relations, Hes. }
    split_and!.
    + eapply same_header_trans;
        [apply same_header_with_relations | apply same_header_with_elements].
    + rewrite Hel. apply lookup_delete_eq.
    + intros k Hk'. rewrite Hel. unfold element_at. rewrite Hes.
      by apply lookup_delete_ne.
    + intros r rel Hr Href. rewrite Hrel, Hr. by apply kept_references.
    + intros r rel Hr Href. rewrite Hrel, Hr. by apply kept_other.
    + intros r Hr. by rewrite Hrel, Hr.
Qed.

(** The cascade scenario of the specification on the sample diagram:
    removing class A as Bob removes A, R1 and R2 and keeps B, C and R3;
    removing a class that is not there fails. *)
Lemma removeClass_cascades_witness :
  removeClass 1 "Z" Sample.bob Sample.store
    = (Err (Error "Class not found"), Sample.store) ∧
  ∃ D', removeClass 1 "A" Sample.bob Sample.store
          = (Ok D', saved D' Sample.store) ∧
        element_at D' "A" = None ∧
        element_at D' "B" = Some Sample.classB ∧
        element_at D' "C" = Some Sample.classC ∧
        relation_at D' "R1" = None ∧
        relation_at D' "R2" = None ∧
        relation_at D' "R3" = Some Sample.R3.
Proof.
  destruct (removeClass_cascades Sample.store Sample.d1 Sample.bob "Z"
              sample_d1_live (or_intror sample_bob_shares_d1)) as [Hfail _].
  destruct (removeClass_cascades Sample.store Sample.d1 Sample.bob "A"
              sample_d1_live (or_intror sample_bob_shares_d1)) as [_ Hok].
  split; [exact (Hfail eq_refl eq_refl)|].
  destruct (Hok (ex_intro _ Sample.classA eq_refl))
    as (D' & Hrun & _ & HA & Hother & Hgone & Hkept & _).
  exists D'. split; [exact Hrun|]. split; [exact HA|].
  split; [exact (Hother "B" ltac:(discriminate))|].
  split; [exact (Hother "C" ltac:(discriminate))|].
  split; [exact (Hgone "R1" Sample.R1 eq_refl (or_introl eq_refl))|].
  split; [exact (Hgone "R2" Sample.R2 eq_refl (or_intror eq_refl))|].
  refine (Hkept "R3" Sample.R3 eq_refl _).
  intros [H|H]; discriminate H.
Defined.

(** [C3] For a stored diagram [D], [shareDiagram] called by anyone but
    the owner fails with Forbidden; this includes a member of
    [sharedWith], for whom [findOne] succeeds. Called by the owner with a
    target id under which no user is stored, it fails with NotFound.
    Nothing is written in either case. *)
Theorem shareDiagram_owner_only (s : Store) (D : Diagram) (U : User)
    (targetUserId : Z) :
  live s D →
  (¬ is_owner D U →
     ∃ msg, shareDiagram (d_id D) targetUserId U s
              = (Err (ForbiddenException msg), s)) ∧
  (¬ is_owner D U → is_shared D U →
     findOne (d_id D) U s = (Ok D, s) ∧
     shareDiagram (d_id D) targetUserId U s
       = (Err (ForbiddenException "Only the owner can share the diagram"), s)) ∧
  (is_owner D U → usersRepository s !! targetUserId = None →
     shareDiagram (d_id D) targetUserId U s
       = (Err (NotFoundException "User to share not found"), s)).
Proof.
  intros HD. split_and!.
  - intros Hno. destruct (hasAccess D U) eqn:Ha.
    + apply hasAccess_true in Ha. eexists.
      by apply shareDiagram_not_owner.
    + apply hasAccess_false in Ha. eexists.
      unfold shareDiagram, bind. by rewrite (findOne_denied s D U HD Ha).
  - intros Hno Hsh. split.
    + apply findOne_live; [done | by right].
    + apply shareDiagram_not_owner; [done | by right | done].
  - intros Hown Hnone. unfold shareDiagram, bind, users_findOneBy.
    rewrite (findOne_live s D U HD (or_introl Hown)).
    rewrite bool_decide_eq_true_2 by done. simpl. by rewrite Hnone.
Qed.

(** On the sample diagram: Bob, who shares it, and Carol, who does not,
    are both refused; Alice, the owner, gets NotFound for user 9. *)
Lemma shareDiagram_owner_only_witness :
  findOne 1 Sample.bob Sample.store = (Ok Sample.d1, Sample.store) ∧
  shareDiagram 1 3 Sample.bob Sample.store
    = (Err (ForbiddenException "Only the owner can share the diagram"),
       Sample.store) ∧
  (∃ msg, shareDiagram 1 2 Sample.carol Sample.store
            = (Err (ForbiddenException msg), Sample.store)) ∧
  shareDiagram 1 9 Sample.alice Sample.store
    = (Err (NotFoundException "User to share not found"), Sample.store).
Proof.
  destruct (shareDiagram_owner_only Sample.store Sample.d1 Sample.bob 3
              sample_d1_live) as (_ & Hshared & _).
  destruct (shareDiagram_owner_only Sample.store Sample.d1 Sample.carol 2
              sample_d1_live) as (Hstranger & _ & _).
  destruct (shareDiagram_owner_only Sample.store Sample.d1 Sample.alice 9
              sample_d1_live) as (_ & _ & Howner).
  destruct (Hshared sample_bob_not_owner_d1 sample_bob_shares_d1) as [Hf Hs].
  split; [exact Hf|]. split; [exact Hs|].
  split; [|exact (Howner sample_alice_owns_d1 eq_refl)].
  apply Hstranger. unfold is_owner. simpl. lia.
Defined.

(** [C4] [addClass] does not insert under every [classId] that is
    absent from the elements map: the guard reads [elements[classId]]
    through the prototype chain. On the blank sample diagram, which has
    no elements at all, Alice's call with the id "constructor" fails
    with "Class already exists" and inserts nothing. *)
Lemma addClass_finds_inherited_names :
  live Sample.store Sample.d2 ∧ may_access Sample.d2 Sample.alice ∧
  element_at Sample.d2 "constructor" = None ∧
  addClass 2 "constructor" (mkClassData "Car" (mkPosition 0 0) None)
           Sample.alice Sample.store
    = (Err (Error "Class already exists"), Sample.store) ∧
  ¬ absent_class_is_inserted.
Proof.
  assert (Hrun : addClass 2 "constructor" (mkClassData "Car" (mkPosition 0 0) None)
                          Sample.alice Sample.store
                 = (Err (Error "Class already exists"), Sample.store))
    by (vm_compute; reflexivity).
  split; [exact sample_d2_live|]. split; [exact (or_introl eq_refl)|].
  split; [reflexivity|]. split; [exact Hrun|].
  intros H.
  destruct (H Sample.store Sample.d2 Sample.alice "constructor"
              (mkClassData "Car" (mkPosition 0 0) None) sample_d2_live
              (or_introl eq_refl) eq_refl) as (D' & HD' & _).
  change (d_id Sample.d2) with 2%Z in HD'. rewrite Hrun in HD'. discriminate HD'.
Qed.



(** Reading the elements after one record has been replaced in place. *)
Lemma element_at_replaced (D : Diagram) (classId : string) (e' : Element) :
  is_Some (element_at D classId) →
  ∀ k, element_at (with_elements D (<[classId := e']>)) k =
         if decide (k = classId) then Some e' else element_at D k.
Proof.
  intros [e He] k. rewrite element_at_with_elements.
  unfold element_at in *. destruct (elements (content D)) as [es|]; [|done].
  destruct (decide (k = classId)) as [->|Hne].
  - apply lookup_insert_eq.
  - by apply lookup_insert_ne.
Qed.



(** ** Element updates *)


(** [C7] [moveElement] does not replace the position under every
    [elementId]: the assignment [elements["__proto__"] = ...] runs the
    inherited setter and stores nothing. Bob moves the element
    "__proto__" of the sample diagram; the call gives what
    [updateElement] with the position gives, it succeeds, and the
    diagram it returns and saves is the one it loaded, with no record
    and no position under that id. *)
Lemma moveElement_stores_nothing_at_proto :
  live Sample.store Sample.d1 ∧ may_access Sample.d1 Sample.bob ∧
  moveElement 1 "__proto__" (mkPosition 5 5) Sample.bob Sample.store
    = updateElement 1 "__proto__" (mkElement None (Some (mkPosition 5 5)) None)
                    Sample.bob Sample.store ∧
  moveElement 1 "__proto__" (mkPosition 5 5) Sample.bob Sample.store
    = (Ok Sample.d1, saved Sample.d1 Sample.store) ∧
  element_at Sample.d1 "__proto__" = None ∧
  ¬ position_is_replaced.
Proof.
  assert (Hrun : moveElement 1 "__proto__" (mkPosition 5 5) Sample.bob Sample.store
                 = (Ok Sample.d1, saved Sample.d1 Sample.store))
    by (vm_compute; reflexivity).
  split; [exact sample_d1_live|].
  split; [exact (or_intror sample_bob_shares_d1)|].
  split; [reflexivity|]. split; [exact Hrun|]. split; [reflexivity|].
  intros H.
  destruct (H Sample.store Sample.d1 Sample.bob "__proto__" (mkPosition 5 5)
              sample_d1_live (or_intror sample_bob_shares_d1))
    as (D' & HD' & Hpos).
  change (d_id Sample.d1) with 1%Z in HD'. rewrite Hrun in HD'.
  injection HD' as <-. discriminate Hpos.
Qed.



(** [C8] [updateElement] does not create a record under every
    [elementId]: the assignment [elements["__proto__"] = ...] runs the
    inherited setter and stores nothing. Bob updates the element
    "__proto__" of the sample diagram with a name; the call succeeds,
    and the diagram it returns and saves is the one it loaded, with no
    record under that id. *)
Lemma updateElement_stores_nothing_at_proto :
  live Sample.store Sample.d1 ∧ may_access Sample.d1 Sample.bob ∧
  updateElement 1 "__proto__" (mkElement (Some "Car") None None)
                Sample.bob Sample.store
    = (Ok Sample.d1, saved Sample.d1 Sample.store) ∧
  element_at Sample.d1 "__proto__" = None ∧
  ¬ element_record_is_written.
Proof.
  assert (Hrun : updateElement 1 "__proto__" (mkElement (Some "Car") None None)
                               Sample.bob Sample.store
                 = (Ok Sample.d1, saved Sample.d1 Sample.store))
    by (vm_compute; reflexivity).
  split; [exact sample_d1_live|].
  split; [exact (or_intror sample_bob_shares_d1)|].
  split; [exact Hrun|]. split; [reflexivity|].
  intros H.
  destruct (H Sample.store Sample.d1 Sample.bob "__proto__"
              (mkElement (Some "Car") None None)
              sample_d1_live (or_intror sample_bob_shares_d1))
    as (D' & HD' & [e He]).
  change (d_id Sample.d1) with 1%Z in HD'. rewrite Hrun in HD'.
  injection HD' as <-. discriminate He.
Qed.



(** [C10] For a stored diagram [D], a caller with access and an
    [elementId] that is not a key of the elements map (and is not
    ["__proto__"], which the assignment does not store), [moveElement]
    (and so [updateElement] with only a position) succeeds and leaves in
    the stored diagram a record at [elementId] that has a position and
    neither a name nor an attribute list. *)
Theorem moveElement_creates_bare_position (s : Store) (D : Diagram) (U : User)
    (elementId : string) (position : Position) :
  live s D → may_access D U → element_at D elementId = None →
  elementId ≠ "__proto__" →
  ∃ D',
    moveElement (d_id D) elementId position U s = (Ok D', saved D' s) ∧
    updateElement (d_id D) elementId (mkElement None (Some position) None) U s
      = (Ok D', saved D' s) ∧
    diagramsRepository (saved D' s) !! d_id D = Some D' ∧
    element_at D' elementId = Some (mkElement None (Some position) None).
Proof.
  intros HD HU He Hk. eexists.
  split; [by apply (updateElement_run s D U HD HU); right|].
  split; [by apply (updateElement_run s D U HD HU); right|].
  split; [apply (saved_lookup (set_elements D _))|].
  rewrite element_at_set_elements, lookup_insert_eq.
  unfold element_or_empty. by rewrite He.
Qed.

(** Moving the unknown element "ghost" of the sample diagram creates a
    record without name and attributes. *)
Lemma moveElement_creates_bare_position_witness :
  ∃ D' e,
    moveElement 1 "ghost" (mkPosition 5 5) Sample.bob Sample.store
      = (Ok D', saved D' Sample.store) ∧
    element_at D' "ghost" = Some e ∧
    el_name e = None ∧ el_attributes e = None ∧
    el_position e = Some (mkPosition 5 5).
Proof.
  destruct (moveElement_creates_bare_position Sample.store Sample.d1 Sample.bob
              "ghost" (mkPosition 5 5)
              sample_d1_live (or_intror sample_bob_shares_d1) eq_refl
              ltac:(discriminate))
    as (D' & Hrun & _ & _ & He).
  exists D', (mkElement None (Some (mkPosition 5 5)) None).
  split; [exact Hrun|]. split; [exact He|]. repeat split.
Defined.

(** ** All operations at once *)

Lemma findOne_Ok_inv i U s d s' :
  findOne i U s = (Ok d, s') →
  s' = s ∧ diagramsRepository s !! i = Some d ∧ deleted d = false.
Proof.
  rewrite findOne_unfold.
  destruct (diagramsRepository s !! i) as [d0|]; [|done].
  destruct (deleted d0) eqn:Hdel; [done|].
  destruct (hasAccess d0 U); [|done].
  by intros [= <- <-].
Qed.

Lemma d_id_with_elements d f : d_id (with_elements d f) = d_id d.
Proof. apply same_header_with_elements. Qed.

Lemma d_id_with_relations d f : d_id (with_relations d f) = d_id d.
Proof. apply same_header_with_relations. Qed.

Lemma owner_with_elements d f : owner (with_elements d f) = owner d.
Proof. apply same_header_with_elements. Qed.

Lemma owner_with_relations d f : owner (with_relations d f) = owner d.
Proof. apply same_header_with_relations. Qed.

(** Every operation either throws, having written nothing, or ends in
    one [save] of the diagram it returns. *)
Lemma run_cases (op : Op) (i : Z) (U : User) (s : Store) :
  (∃ e, run op i U s = (Err e, s)) ∨
  (∃ d d', findOne i U s = (Ok d, s) ∧
           run op i U s = (Ok d', saved d' s) ∧
           (patch_owner op = None → owner d' = owner d) ∧
           (patch_id op = None → d_id d' = d_id d)).
Proof.
  destruct (findOne_cases i U s) as [[e H]|[d H]].
  - left. exists e.
    destruct op; simpl;
      unfold update, remove, shareDiagram, updateElement, moveElement,
        updateElement, addAttribute, updateAttribute, removeAttribute,
        addClass, removeClass, addRelation, updateRelation, removeRelation,
        bind; by rewrite H.
  - destruct op; simpl;
      unfold update, remove, shareDiagram, updateElement, moveElement,
        updateElement, addAttribute, updateAttribute, removeAttribute,
        addClass, removeClass, addRelation, updateRelation, removeRelation,
        bind, users_findOneBy, throw, softRemove; rewrite H; simpl;
      split_run;
      first [ left; eexists; reflexivity
            | right; eexists _, _; split; [reflexivity|];
              split; [reflexivity|]; split; simpl; intros Hp;
              rewrite ?owner_with_elements, ?owner_with_relations,
                ?d_id_with_elements, ?d_id_with_relations;
              try rewrite Hp; reflexivity ].
Qed.

(** [remove] marks the row: it stays in the table, and [findOne] no
    longer returns it. *)
Lemma remove_keeps_row (s : Store) (D : Diagram) (U : User) :
  live s D → may_access D U →
  ∃ D', remove (d_id D) U s = (Ok D', saved D' s) ∧
        content D' = content D ∧ deleted D' = true ∧
        diagramsRepository (saved D' s) !! d_id D = Some D' ∧
        findOne (d_id D) U (saved D' s)
          = (Err (NotFoundException "Diagram not found"), saved D' s).
Proof.
  intros HD HU. exists (set_deleted D true).
  unfold remove, bind. rewrite (findOne_live s D U HD HU).
  split; [reflexivity|]. split; [reflexivity|]. split; [reflexivity|].
  split; [apply (saved_lookup (set_deleted D true))|].
  rewrite findOne_unfold. simpl. by rewrite lookup_insert_eq.
Qed.

(** [C9] Every operation on a diagram is all-or-nothing on the store:
    either it fails and the store is exactly the one before the call, or
    it returns a diagram and the store is the one before the call with
    that diagram saved. *)
Theorem mutations_atomic (op : Op) (diagramId : Z) (user : User) (s : Store) :
  (∃ e, run op diagramId user s = (Err e, s)) ∨
  (∃ d, run op diagramId user s = (Ok d, saved d s)).
Proof.
  destruct (run_cases op diagramId user s) as [?|(d & d' & _ & H & _)];
    [by left | right; eauto].
Qed.

(** [update] copies an [owner] property of its patch onto the diagram:
    Bob, who only shares the sample diagram owned by Alice, patches it
    with [{ owner: carol }]; the diagram returned and stored is owned by
    Carol. It copies an [id] property as well: patched with [{ id: 3 }],
    Bob's diagram is saved over Carol's private diagram 3, which he
    could not read, and that row is now Alice's. So the invariant does
    not hold as worded. *)
Lemma owner_changed_by_update :
  (∃ d', update 1 (mkDiagramDto None None (Some Sample.carol) None None None)
                Sample.bob Sample.store = (Ok d', saved d' Sample.store) ∧
         diagramsRepository (saved d' Sample.store) !! 1%Z = Some d' ∧
         owner Sample.d1 = Sample.alice ∧ owner d' = Sample.carol) ∧
  (∃ d', update 1 (mkDiagramDto (Some 3%Z) None None None None None)
                Sample.bob Sample.store3 = (Ok d', saved d' Sample.store3) ∧
         diagramsRepository Sample.store3 !! 3%Z = Some Sample.d3 ∧
         owner Sample.d3 = Sample.carol ∧
         diagramsRepository (saved d' Sample.store3) !! 3%Z = Some d' ∧
         owner d' = Sample.alice) ∧
  ¬ owner_never_changes.
Proof.
  split_and!.
  - eexists. split; [reflexivity|]. split; [reflexivity|]. split; reflexivity.
  - eexists. split; [reflexivity|]. split; [reflexivity|].
    split; [reflexivity|]. split; reflexivity.
  - intros H.
    specialize (H (Update (mkDiagramDto None None (Some Sample.carol)
                                        None None None))
                  Sample.store Sample.d1 Sample.bob _ _ sample_d1_live eq_refl).
    discriminate H.
Qed.

(** [C6] (amended) After creation the owner of a diagram does not
    change under any operation other than [create] whose input carries
    neither an [owner] nor an [id] property: for every such operation on
    a stored diagram [D], a returned diagram has the owner of [D], and
    every diagram of the table, [D] included, is still stored after the
    call, under the same id and with the owner it had. *)
Theorem owner_immutable (op : Op) (s : Store) (D : Diagram) (U : User)
    (r : Result Diagram) (s' : Store) :
  diagramsRepository s !! d_id D = Some D →
  patch_owner op = None → patch_id op = None →
  run op (d_id D) U s = (r, s') →
  (∀ d', r = Ok d' → owner d' = owner D) ∧
  (∀ j Dj, diagramsRepository s !! j = Some Dj →
     ∃ Dj', diagramsRepository s' !! j = Some Dj' ∧ owner Dj' = owner Dj).
Proof.
  intros HD Hp Hi Hrun.
  destruct (run_cases op (d_id D) U s) as [[e H]|(d & d' & Hf & H & Hown & Hid)];
    rewrite H in Hrun; injection Hrun as <- <-.
  - split; [done | eauto].
  - apply findOne_Ok_inv in Hf as (_ & Hd & _).
    assert (d = D) as -> by congruence.
    specialize (Hown Hp). specialize (Hid Hi).
    split; [by intros ? [= <-]|].
    intros j Dj Hj. simpl. rewrite Hid.
    destruct (decide (j = d_id D)) as [->|Hne].
    + exists d'. rewrite lookup_insert_eq. split; [done|]. congruence.
    + exists Dj. by rewrite lookup_insert_ne.
Qed.

(** On the store with Carol's private diagram: Bob patches the name of
    diagram 1, and Alice shares it with Carol; the owner stays Alice
    both times, and diagram 3 stays Carol's. *)
Lemma owner_immutable_witness :
  (∃ d' D3,
     run (Update (mkDiagramDto None (Some "Renamed") None None None None))
         1 Sample.bob Sample.store3 = (Ok d', saved d' Sample.store3) ∧
     owner d' = Sample.alice ∧
     diagramsRepository (saved d' Sample.store3) !! 3%Z = Some D3 ∧
     owner D3 = Sample.carol) ∧
  (∃ d', run (ShareDiagram 3) 1 Sample.alice Sample.store3
           = (Ok d', saved d' Sample.store3) ∧
         owner d' = Sample.alice ∧ sharedWith d' = [Sample.bob; Sample.carol]).
Proof.
  split.
  - pose proof (owner_immutable
                  (Update (mkDiagramDto None (Some "Renamed") None None None None))
                  Sample.store3 Sample.d1 Sample.bob _ _
                  eq_refl eq_refl eq_refl eq_refl) as [Hret Hrows].
    destruct (Hrows 3%Z Sample.d3 eq_refl) as (D3 & HD3 & Ho3).
    eexists _, D3. split; [reflexivity|].
    split; [exact (Hret _ eq_refl)|]. split; [exact HD3 | exact Ho3].
  - eexists. split; [reflexivity|]. split; [|reflexivity].
    refine (proj1 (owner_immutable (ShareDiagram 3)
                     Sample.store3 Sample.d1 Sample.alice _ _
                     eq_refl eq_refl eq_refl eq_refl)
                  _ eq_refl).
Defined.

(** * Further properties of the service *)

(** ** The access gate *)

Lemma run_findOne_err (op : Op) (i : Z) (U : User) (s : Store) (e : Exception) :
  findOne i U s = (Err e, s) → run op i U s = (Err e, s).
Proof. intros H. destruct op; simpl; unfold_service; by rewrite H. Qed.

Lemma findOne_same_id (i : Z) (U U' : User) (s : Store) :
  u_id U = u_id U' → findOne i U s = findOne i U' s.
Proof.
  intros H. rewrite !findOne_unfold. unfold hasAccess. by rewrite H.
Qed.

(** [X1] Every operation on a diagram goes through the access check
    first: called by a user who neither owns nor shares a stored
    diagram it fails with Forbidden "Access denied"; called with an id
    under which nothing is stored, or whose row is soft-removed, it
    fails with NotFound "Diagram not found". The store is unchanged. *)
Theorem every_operation_checks_access (op : Op) (s : Store) (U : User) :
  (∀ D, live s D → ¬ may_access D U →
     run op (d_id D) U s = (Err (ForbiddenException "Access denied"), s)) ∧
  (∀ i, diagramsRepository s !! i = None →
     run op i U s = (Err (NotFoundException "Diagram not found"), s)) ∧
  (∀ i D, diagramsRepository s !! i = Some D → deleted D = true →
     run op i U s = (Err (NotFoundException "Diagram not found"), s)).
Proof.
  split_and!.
  - intros D HD HU. by apply run_findOne_err, findOne_denied.
  - intros i Hi. apply run_findOne_err. by rewrite findOne_unfold, Hi.
  - intros i D Hi Hdel. apply run_findOne_err.
    by rewrite findOne_unfold, Hi, Hdel.
Qed.

(** Carol cannot remove class A of the sample diagram, and nobody can
    add a relation to diagram 7. *)
Lemma every_operation_checks_access_witness :
  run (RemoveClass "A") 1 Sample.carol Sample.store
    = (Err (ForbiddenException "Access denied"), Sample.store) ∧
  run (AddRelation "R9" Sample.linkAB) 7 Sample.alice Sample.store
    = (Err (NotFoundException "Diagram not found"), Sample.store).
Proof.
  split.
  - apply (proj1 (every_operation_checks_access (RemoveClass "A")
                    Sample.store Sample.carol) Sample.d1 sample_d1_live
                 sample_carol_no_access_d1).
  - apply (proj1 (proj2 (every_operation_checks_access
                           (AddRelation "R9" Sample.linkAB)
                           Sample.store Sample.alice)) 7%Z eq_refl).
Defined.

(** [X2] The service reads nothing of the caller but its id: two user
    objects with the same id get the same result and the same store from
    every operation. (The controller passes [{ id: user.sub }].) *)
Theorem caller_is_its_id (op : Op) (i : Z) (U U' : User) (s : Store) :
  u_id U = u_id U' → run op i U s = run op i U' s.
Proof.
  intros H.
  destruct op; simpl; unfold_service;
    rewrite (findOne_same_id i U U' s H); try reflexivity.
  by rewrite H.
Qed.

(** A user object with Bob's id and no other property shares the sample
    diagram as Bob does. *)
Lemma caller_is_its_id_witness :
  run (MoveElement "A" (mkPosition 5 5)) 1 Sample.bob Sample.store
  = run (MoveElement "A" (mkPosition 5 5)) 1 (mkUser 2 "" "") Sample.store.
Proof.
  apply (caller_is_its_id (MoveElement "A" (mkPosition 5 5)) 1
           Sample.bob (mkUser 2 "" "") Sample.store eq_refl).
Defined.

(** ** Sharing and removing a diagram *)

(** [X3] When the owner shares a stored diagram with an existing user
    who is not yet among its shared users, the call succeeds: that user
    is appended to [sharedWith], nothing else of the diagram changes,
    everybody who had access keeps it, and the new member can now read
    the diagram with [findOne]. *)
Theorem shareDiagram_grants_access (s : Store) (D : Diagram) (U T : User)
    (targetUserId : Z) :
  live s D → is_owner D U → usersRepository s !! targetUserId = Some T →
  (∀ u, u ∈ sharedWith D → u_id u ≠ u_id T) →
  ∃ D', shareDiagram (d_id D) targetUserId U s = (Ok D', saved D' s) ∧
    sharedWith D' = (sharedWith D ++ [T])%list ∧
    d_id D' = d_id D ∧ d_name D' = d_name D ∧ owner D' = owner D ∧
    content D' = content D ∧ deleted D' = deleted D ∧
    (∀ V, may_access D V → may_access D' V) ∧
    findOne (d_id D) T (saved D' s) = (Ok D', saved D' s).
Proof.
  intros HD Hown HT _. exists (set_sharedWith D (sharedWith D ++ [T])%list).
  split.
  { unfold shareDiagram, bind, users_findOneBy.
    rewrite (findOne_live s D U HD (or_introl Hown)).
    rewrite bool_decide_eq_true_2 by done. simpl. by rewrite HT. }
  split_and!; try reflexivity.
  - intros V [HV|(u & Hin & Hu)]; [by left | right].
    exists u. split; [|done]. simpl. apply elem_of_app. by left.
  - apply (findOne_live (saved _ s) (set_sharedWith D (sharedWith D ++ [T])%list)).
    + apply saved_live. apply HD.
    + right. exists T. split; [|done]. simpl. apply elem_of_app. right.
      apply list_elem_of_here.
Qed.

(** Alice shares the sample diagram with Carol, who was refused before
    and reads it afterwards. *)
Lemma shareDiagram_grants_access_witness :
  findOne 1 Sample.carol Sample.store
    = (Err (ForbiddenException "Access denied"), Sample.store) ∧
  ∃ D', shareDiagram 1 3 Sample.alice Sample.store
          = (Ok D', saved D' Sample.store) ∧
        sharedWith D' = [Sample.bob; Sample.carol] ∧
        findOne 1 Sample.carol (saved D' Sample.store)
          = (Ok D', saved D' Sample.store).
Proof.
  split; [reflexivity|].
  assert (Hnew : ∀ u, u ∈ sharedWith Sample.d1 → u_id u ≠ u_id Sample.carol).
  { intros u Hu. apply list_elem_of_singleton in Hu as ->. discriminate. }
  destruct (shareDiagram_grants_access Sample.store Sample.d1 Sample.alice
              Sample.carol 3 sample_d1_live sample_alice_owns_d1 eq_refl Hnew)
    as (D' & Hrun & Hsh & _ & _ & _ & _ & _ & _ & Hread).
  exists D'. split; [exact Hrun|]. split; [exact Hsh | exact Hread].
Defined.

(** [X4] [remove] is open to every user with access, owner or not. It
    keeps the row, marked as removed and otherwise as it was; from then
    on every operation on that id, by any caller, fails with NotFound
    and writes nothing. *)
Theorem remove_blocks_everything (s : Store) (D : Diagram) (U : User) :
  live s D → may_access D U →
  ∃ D', remove (d_id D) U s = (Ok D', saved D' s) ∧
    deleted D' = true ∧
    d_id D' = d_id D ∧ d_name D' = d_name D ∧ owner D' = owner D ∧
    sharedWith D' = sharedWith D ∧ content D' = content D ∧
    diagramsRepository (saved D' s) !! d_id D = Some D' ∧
    ∀ op V, run op (d_id D) V (saved D' s)
              = (Err (NotFoundException "Diagram not found"), saved D' s).
Proof.
  intros HD HU. exists (set_deleted D true).
  split.
  { unfold remove, bind. by rewrite (findOne_live s D U HD HU). }
  split_and!; try reflexivity.
  - apply (saved_lookup (set_deleted D true)).
  - intros op V. apply run_findOne_err.
    rewrite findOne_unfold. simpl. by rewrite lookup_insert_eq.
Qed.

(** Bob, who only shares the sample diagram, removes it; Alice, its
    owner, can no longer read it. *)
Lemma remove_blocks_everything_witness :
  ∃ D', remove 1 Sample.bob Sample.store = (Ok D', saved D' Sample.store) ∧
        diagramsRepository (saved D' Sample.store) !! 1%Z = Some D' ∧
        run (MoveElement "A" (mkPosition 1 1)) 1 Sample.alice
            (saved D' Sample.store)
          = (Err (NotFoundException "Diagram not found"),
             saved D' Sample.store).
Proof.
  destruct (remove_blocks_everything Sample.store Sample.d1 Sample.bob
              sample_d1_live (or_intror sample_bob_shares_d1))
    as (D' & Hrun & _ & _ & _ & _ & _ & _ & Hrow & Hblock).
  exists D'. split; [exact Hrun|]. split; [exact Hrow|].
  exact (Hblock (MoveElement "A" (mkPosition 1 1)) Sample.alice).
Defined.

(** ** Attributes *)

Section AuthorizedAttributes.

Context (s : Store) (D : Diagram) (U : User).
Hypothesis HD : live s D.
Hypothesis HU : may_access D U.

Lemma addAttribute_run classId cls attribute :
  element_at D classId = Some cls →
  let D' := with_elements D
              (<[classId := set_attributes cls
                              (default [] (el_attributes cls) ++ [attribute])]>) in
  addAttribute (d_id D) classId attribute U s = (Ok D', saved D' s).
Proof.
  intros He. unfold addAttribute, bind.
  by rewrite (findOne_live s D U HD HU), (element_get_own D classId cls He).
Qed.


Lemma addAttribute_builtin classId attribute :
  element_get D classId = Some Builtin →
  addAttribute (d_id D) classId attribute U s = (Ok D, saved D s).
Proof.
  intros He. unfold addAttribute, bind.
  by rewrite (findOne_live s D U HD HU), He.
Qed.




End AuthorizedAttributes.

(** Writing back what is stored changes nothing. *)
Lemma with_elements_id (D : Diagram) (k : string) (e : Element) :
  element_at D k = Some e → with_elements D (<[k := e]>) = D.
Proof.
  intros He. unfold with_elements, element_at in *.
  destruct D as [i n o sh [[es|] rs] del]; simpl in *; [|done].
  unfold set_elements, set_content. simpl. by rewrite insert_id.
Qed.

Lemma with_elements_twice (D : Diagram) (k : string) (e1 e2 : Element) :
  is_Some (element_at D k) →
  with_elements (with_elements D (<[k := e1]>)) (<[k := e2]>)
  = with_elements D (<[k := e2]>).
Proof.
  intros [e He]. unfold with_elements, element_at in *.
  destruct D as [i n o sh [[es|] rs] del]; simpl in *; [|done].
  unfold set_elements, set_content. simpl. by rewrite insert_insert_eq.
Qed.

Lemma saved_twice (d1 d2 : Diagram) (s : Store) :
  d_id d1 = d_id d2 → saved d2 (saved d1 s) = saved d2 s.
Proof.
  intros H. unfold saved. simpl. by rewrite H, insert_insert_eq.
Qed.

Lemma saved_id (d : Diagram) (s : Store) :
  diagramsRepository s !! d_id d = Some d → saved d s = s.
Proof.
  intros H. unfold saved. rewrite insert_id by done. by destruct s.
Qed.



(** [X6] Adding an attribute to an element that has an attribute list
    and then removing the last index restores the diagram and the whole
    store: the second call returns the original diagram and leaves the
    original store. *)
Theorem addAttribute_removeAttribute_roundtrip (s : Store) (D : Diagram)
    (U : User) (classId : string) (cls : Element) (attrs : list Attribute)
    (attribute : Attribute) :
  live s D → may_access D U →
  element_at D classId = Some cls → el_attributes cls = Some attrs →
  ∃ D1, addAttribute (d_id D) classId attribute U s = (Ok D1, saved D1 s) ∧
        removeAttribute (d_id D) classId (Z.of_nat (length attrs)) U
                        (saved D1 s) = (Ok D, s).
Proof.
  intros HD HU He Ha.
  set (cls1 := set_attributes cls (attrs ++ [attribute])).
  set (D1 := with_elements D (<[classId := cls1]>)).
  assert (H1 : same_header D D1) by apply same_header_with_elements.
  assert (He1 : element_at D1 classId = Some cls1).
  { unfold D1. rewrite element_at_replaced by eauto. by rewrite decide_True. }
  exists D1. split.
  { pose proof (addAttribute_run s D U HD HU classId cls attribute He) as H.
    simpl in H. by rewrite Ha in H. }
  replace (d_id D) with (d_id D1) by apply H1.
  rewrite (removeAttribute_run (saved D1 s) D1 U
             (header_live s D HD D1 H1) (header_access D U HU D1 H1)
             classId cls1 (attrs ++ [attribute]) (Z.of_nat (length attrs))
             He1 eq_refl)
    by (rewrite length_app; simpl; lia).
  rewrite Nat2Z.id, delete_middle, app_nil_r.
  assert (Hback : with_elements D1 (<[classId := set_attributes cls1 attrs]>) = D).
  { unfold D1. rewrite with_elements_twice by eauto.
    apply with_elements_id. rewrite He. f_equal.
    destruct cls; simpl in *. by subst. }
  rewrite Hback. f_equal.
  rewrite saved_twice by apply H1. apply saved_id, HD.
Qed.

(** On the sample store: Bob adds an attribute to class A and removes
    index 3; the store is the sample store again. *)
Lemma addAttribute_removeAttribute_roundtrip_witness :
  ∃ D1, addAttribute 1 "A" (mkAttribute "doors" "number") Sample.bob Sample.store
          = (Ok D1, saved D1 Sample.store) ∧
        removeAttribute 1 "A" 3 Sample.bob (saved D1 Sample.store)
          = (Ok Sample.d1, Sample.store).
Proof.
  exact (addAttribute_removeAttribute_roundtrip Sample.store Sample.d1
           Sample.bob "A" Sample.classA [Sample.a0; Sample.a1; Sample.a2]
           (mkAttribute "doors" "number")
           sample_d1_live (or_intror sample_bob_shares_d1) eq_refl eq_refl).
Defined.



(** ** Relations *)

Lemma relation_at_replaced (D : Diagram) (relationId : string) (rel' : Relation) :
  is_Some (relation_at D relationId) →
  ∀ r, relation_at (with_relations D (<[relationId := rel']>)) r =
         if decide (r = relationId) then Some rel' else relation_at D r.
Proof.
  intros [rel Hr] r. rewrite relation_at_with_relations.
  unfold relation_at in *. destruct (relations (content D)) as [rs|]; [|done].
  destruct (decide (r = relationId)) as [->|Hne].
  - apply lookup_insert_eq.
  - by apply lookup_insert_ne.
Qed.

Lemma relation_at_deleted (D : Diagram) (relationId : string) :
  ∀ r, relation_at (with_relations D (delete relationId)) r =
         if decide (r = relationId) then None else relation_at D r.
Proof.
  intros r. rewrite relation_at_with_relations.
  unfold relation_at. destruct (relations (content D)) as [rs|].
  - destruct (decide (r = relationId)) as [->|Hne].
    + apply lookup_delete_eq.
    + by apply lookup_delete_ne.
  - by destruct (decide (r = relationId)).
Qed.

Section AuthorizedRelations.

Context (s : Store) (D : Diagram) (U : User).
Hypothesis HD : live s D.
Hypothesis HU : may_access D U.

Lemma addRelation_taken relationId relationData :
  is_Some (js_get (default ∅ (relations (content D))) relationId) →
  addRelation (d_id D) relationId relationData U s =
    (Err (Error "Relation already exists"), s).
Proof.
  intros [m Hm]. unfold addRelation, bind.
  rewrite (findOne_live s D U HD HU). by rewrite Hm.
Qed.

Lemma addRelation_duplicate relationId relationData :
  is_Some (relation_at D relationId) →
  addRelation (d_id D) relationId relationData U s =
    (Err (Error "Relation already exists"), s).
Proof.
  intros [rel Hr]. apply addRelation_taken.
  rewrite (js_get_own _ _ rel); [eauto|]. by rewrite relations_or_empty.
Qed.

Lemma addRelation_fresh relationId relationData :
  relation_at D relationId = None → inherited relationId = false →
  let D' := set_relations D
              (<[relationId := relation_of relationData]>
                 (default ∅ (relations (content D)))) in
  addRelation (d_id D) relationId relationData U s = (Ok D', saved D' s).
Proof.
  intros Hr Hk. unfold addRelation, bind.
  rewrite (findOne_live s D U HD HU).
  rewrite js_get_undefined by by rewrite ?relations_or_empty.
  rewrite js_set_insert; [done|]. right. by apply not_inherited_not_proto.
Qed.

Lemma removeRelation_run relationId :
  is_Some (relation_get D relationId) →
  let D' := with_relations D (delete relationId) in
  removeRelation (d_id D) relationId U s = (Ok D', saved D' s).
Proof.
  intros [m Hm]. unfold removeRelation, bind.
  by rewrite (findOne_live s D U HD HU), Hm.
Qed.

Lemma removeRelation_undefined relationId :
  relation_get D relationId = None →
  removeRelation (d_id D) relationId U s
    = (Err (Error "Relation not found"), s).
Proof.
  intros Hm. unfold removeRelation, bind.
  by rewrite (findOne_live s D U HD HU), Hm.
Qed.

Lemma updateRelation_run relationId old relationData :
  relation_at D relationId = Some old →
  let D' := with_relations D
              (<[relationId := merge_relation old relationData]>) in
  updateRelation (d_id D) relationId relationData U s = (Ok D', saved D' s).
Proof.
  intros Hr. unfold updateRelation, bind.
  rewrite (findOne_live s D U HD HU), (relation_get_own D relationId old Hr).
  simpl. do 3 f_equal. unfold with_relations, relation_at in *.
  destruct (relations (content D)) as [rs|]; [|done].
  by rewrite js_set_insert by eauto.
Qed.

Lemma updateRelation_undefined relationId relationData :
  relation_get D relationId = None →
  updateRelation (d_id D) relationId relationData U s
    = (Err (Error "Relation not found"), s).
Proof.
  intros Hm. unfold updateRelation, bind.
  by rewrite (findOne_live s D U HD HU), Hm.
Qed.

End AuthorizedRelations.

(** [X8] For a stored diagram and a caller with access, [addRelation]
    fails with the generic error "Relation already exists" when
    [relationId] is a key of the relations map. When it is not, and is
    not the name of a member every object inherits, the call succeeds
    for any relation data, whatever its endpoints: the data is stored as
    given at [relationId], the other relations and all elements are
    unchanged, and a second [addRelation] with the same id fails. *)
Theorem addRelation_rejects_duplicates (s : Store) (D : Diagram) (U : User)
    (relationId : string) (relationData : RelationData) :
  live s D → may_access D U →
  (is_Some (relation_at D relationId) →
     addRelation (d_id D) relationId relationData U s
       = (Err (Error "Relation already exists"), s)) ∧
  (relation_at D relationId = None → inherited relationId = false →
     ∃ D', addRelation (d_id D) relationId relationData U s
             = (Ok D', saved D' s) ∧
       same_header D D' ∧
       relation_at D' relationId
         = Some (mkRelation (Some (rd_from relationData))
                            (Some (rd_to relationData))
                            (Some (rd_type relationData))) ∧
       (∀ r, r ≠ relationId → relation_at D' r = relation_at D r) ∧
       (∀ k, element_at D' k = element_at D k) ∧
       (∀ relationData',
          addRelation (d_id D) relationId relationData' U (saved D' s)
            = (Err (Error "Relation already exists"), saved D' s))).
Proof.
  intros HD HU. split.
  - by apply addRelation_duplicate.
  - intros Hr Hk. eexists. split; [by apply addRelation_fresh|].
    set (D' := set_relations D _).
    assert (Hhd : same_header D D') by apply same_header_set_content.
    assert (Hnew : relation_at D' relationId = Some (relation_of relationData)).
    { unfold D'. rewrite relation_at_set_relations. apply lookup_insert_eq. }
    split_and!; [done | exact Hnew | | done |].
    + intros r Hne. unfold D'. rewrite relation_at_set_relations.
      rewrite lookup_insert_ne by done. apply relations_or_empty.
    + intros relationData'.
      replace (d_id D) with (d_id D') by apply Hhd.
      apply addRelation_duplicate.
      * by apply (header_live s D HD).
      * by apply (header_access D U HU).
      * by rewrite Hnew.
Qed.

(** On the sample store: "R1" is taken; "R9" from "A" to the unknown
    element "nowhere" is accepted, once. *)
Lemma addRelation_rejects_duplicates_witness :
  addRelation 1 "R1" Sample.linkAB Sample.bob Sample.store
    = (Err (Error "Relation already exists"), Sample.store) ∧
  ∃ D', addRelation 1 "R9" Sample.linkNowhere Sample.bob Sample.store
          = (Ok D', saved D' Sample.store) ∧
        relation_at D' "R9"
          = Some (mkRelation (Some "A") (Some "nowhere") (Some "association")) ∧
        addRelation 1 "R9" Sample.linkAB Sample.bob (saved D' Sample.store)
          = (Err (Error "Relation already exists"), saved D' Sample.store).
Proof.
  split.
  - apply (addRelation_rejects_duplicates Sample.store Sample.d1 Sample.bob
             "R1" Sample.linkAB sample_d1_live (or_intror sample_bob_shares_d1)).
    exists Sample.R1. reflexivity.
  - destruct (addRelation_rejects_duplicates Sample.store Sample.d1 Sample.bob
                "R9" Sample.linkNowhere
                sample_d1_live (or_intror sample_bob_shares_d1)) as [_ Hfresh].
    destruct (Hfresh eq_refl eq_refl) as (D' & Hrun & _ & Hnew & _ & _ & Hagain).
    exists D'. split; [exact Hrun|]. split; [exact Hnew | apply Hagain].
Defined.

(** [X9] [addRelation] does not look at the elements: with a
    [relationId] that is free (not a key of the relations map and not
    the name of a member every object inherits) and a [from] or [to]
    that is not an element of the diagram, the call succeeds and the
    stored diagram has a relation with a dangling endpoint. *)
Theorem addRelation_can_dangle (s : Store) (D : Diagram) (U : User)
    (relationId : string) (relationData : RelationData) :
  live s D → may_access D U →
  relation_at D relationId = None → inherited relationId = false →
  element_at D (rd_from relationData) = None ∨
  element_at D (rd_to relationData) = None →
  ∃ D', addRelation (d_id D) relationId relationData U s
          = (Ok D', saved D' s) ∧
        diagramsRepository (saved D' s) !! d_id D = Some D' ∧
        ¬ well_linked D'.
Proof.
  intros HD HU Hr Hk Hdangle. eexists.
  split; [by apply addRelation_fresh|].
  split; [apply (saved_lookup (set_relations D _))|].
  intros Hwl.
  destruct (Hwl relationId (relation_of relationData))
    as [(k1 & Hk1 & [e1 H1]) (k2 & Hk2 & [e2 H2])].
  { rewrite relation_at_set_relations. apply lookup_insert_eq. }
  rewrite element_at_set_relations in H1, H2.
  injection Hk1 as <-. injection Hk2 as <-.
  destruct Hdangle; congruence.
Qed.

(** Bob adds to the sample diagram a relation to the unknown element
    "nowhere". *)
Lemma addRelation_can_dangle_witness :
  ∃ D', addRelation 1 "R9" Sample.linkNowhere Sample.bob Sample.store
          = (Ok D', saved D' Sample.store) ∧
        ¬ well_linked D'.
Proof.
  destruct (addRelation_can_dangle Sample.store Sample.d1 Sample.bob "R9"
              Sample.linkNowhere
              sample_d1_live (or_intror sample_bob_shares_d1) eq_refl eq_refl
              (or_intror eq_refl)) as (D' & Hrun & _ & Hbad).
  exists D'. split; [exact Hrun | exact Hbad].
Defined.

(** [X10] For a stored diagram and a caller with access,
    [removeRelation] fails with the generic error "Relation not found"
    when [relationId] is not a key of the relations map and is not the
    name of a member every object inherits; when it is a key, it deletes
    that relation and nothing else: the other relations and all elements
    stay, also the elements the relation joined. *)
Theorem removeRelation_deletes_one (s : Store) (D : Diagram) (U : User)
    (relationId : string) :
  live s D → may_access D U →
  (relation_at D relationId = None → inherited relationId = false →
     removeRelation (d_id D) relationId U s
       = (Err (Error "Relation not found"), s)) ∧
  (is_Some (relation_at D relationId) →
     ∃ D', removeRelation (d_id D) relationId U s = (Ok D', saved D' s) ∧
       same_header D D' ∧
       relation_at D' relationId = None ∧
       (∀ r, r ≠ relationId → relation_at D' r = relation_at D r) ∧
       (∀ k, element_at D' k = element_at D k)).
Proof.
  intros HD HU. split.
  - intros Hr Hk. apply (removeRelation_undefined s D U HD HU).
    by apply relation_get_undefined.
  - intros [rel Hr]. eexists. split.
    { apply (removeRelation_run s D U HD HU).
      rewrite (relation_get_own D relationId rel Hr). eauto. }
    split_and!.
    + apply same_header_with_relations.
    + rewrite relation_at_deleted. by rewrite decide_True.
    + intros r Hne. rewrite relation_at_deleted. by rewrite decide_False.
    + intros k. apply element_at_with_relations.
Qed.

(** On the sample store: Bob removes R1; classes A and B and relation
    R2 stay; there is no relation "R9". *)
Lemma removeRelation_deletes_one_witness :
  removeRelation 1 "R9" Sample.bob Sample.store
    = (Err (Error "Relation not found"), Sample.store) ∧
  ∃ D', removeRelation 1 "R1" Sample.bob Sample.store
          = (Ok D', saved D' Sample.store) ∧
        relation_at D' "R1" = None ∧
        relation_at D' "R2" = Some Sample.R2 ∧
        element_at D' "A" = Some Sample.classA ∧
        element_at D' "B" = Some Sample.classB.
Proof.
  destruct (removeRelation_deletes_one Sample.store Sample.d1 Sample.bob "R9"
              sample_d1_live (or_intror sample_bob_shares_d1)) as [Hfail _].
  destruct (removeRelation_deletes_one Sample.store Sample.d1 Sample.bob "R1"
              sample_d1_live (or_intror sample_bob_shares_d1)) as [_ Hok].
  split; [exact (Hfail eq_refl eq_refl)|].
  destruct (Hok (ex_intro _ Sample.R1 eq_refl))
    as (D' & Hrun & _ & Hgone & Hrel & Hel).
  exists D'. split; [exact Hrun|]. split; [exact Hgone|].
  split; [exact (Hrel "R2" ltac:(discriminate))|].
  split; [exact (Hel "A") | exact (Hel "B")].
Defined.

(** [X11] Adding a relation under a free id (not a key of the relations
    map and not the name of a member every object inherits) and
    removing it again gives back the relations and the elements the
    diagram had. When the diagram already had a relations map, the
    second call returns the original diagram and leaves the original
    store. *)
Theorem addRelation_removeRelation_roundtrip (s : Store) (D : Diagram)
    (U : User) (relationId : string) (relationData : RelationData) :
  live s D → may_access D U →
  relation_at D relationId = None → inherited relationId = false →
  ∃ D1 D2,
    addRelation (d_id D) relationId relationData U s = (Ok D1, saved D1 s) ∧
    removeRelation (d_id D) relationId U (saved D1 s)
      = (Ok D2, saved D2 (saved D1 s)) ∧
    same_header D D2 ∧
    (∀ r, relation_at D2 r = relation_at D r) ∧
    elements (content D2) = elements (content D) ∧
    (is_Some (relations (content D)) → D2 = D ∧ saved D2 (saved D1 s) = s).
Proof.
  intros HD HU Hr Hk.
  set (rs := default ∅ (relations (content D))).
  set (D1 := set_relations D (<[relationId := relation_of relationData]> rs)).
  assert (H1 : same_header D D1) by apply same_header_set_content.
  assert (Hr1 : relation_at D1 relationId = Some (relation_of relationData)).
  { unfold D1. rewrite relation_at_set_relations. apply lookup_insert_eq. }
  assert (Hnone : rs !! relationId = None).
  { unfold rs. by rewrite relations_or_empty. }
  assert (H2 : with_relations D1 (delete relationId) = set_relations D rs).
  { unfold D1, with_relations. simpl.
    unfold set_relations, set_content. simpl.
    by rewrite delete_insert_eq, delete_id. }
  exists D1, (with_relations D1 (delete relationId)). split_and!.
  - by apply (addRelation_fresh s D U HD HU).
  - replace (d_id D) with (d_id D1) by apply H1.
    apply (removeRelation_run (saved D1 s) D1 U
             (header_live s D HD D1 H1) (header_access D U HU D1 H1)).
    rewrite (relation_get_own D1 relationId _ Hr1). eauto.
  - rewrite H2. apply same_header_set_content.
  - intros r. rewrite H2, relation_at_set_relations. apply relations_or_empty.
  - by rewrite H2.
  - intros [rs0 Hrs]. rewrite H2.
    assert (Hback : set_relations D rs = D).
    { unfold rs. rewrite Hrs. simpl.
      destruct D as [i n o sh [es rs'] del]. simpl in *. by subst. }
    rewrite Hback. split; [done|].
    rewrite saved_twice by apply H1. apply saved_id, HD.
Qed.

(** On the sample store: Bob adds "R9" and removes it; the store is the
    sample store again. *)
Lemma addRelation_removeRelation_roundtrip_witness :
  ∃ D1 D2,
    addRelation 1 "R9" Sample.linkAB Sample.bob Sample.store
      = (Ok D1, saved D1 Sample.store) ∧
    removeRelation 1 "R9" Sample.bob (saved D1 Sample.store)
      = (Ok D2, saved D2 (saved D1 Sample.store)) ∧
    D2 = Sample.d1 ∧ saved D2 (saved D1 Sample.store) = Sample.store.
Proof.
  destruct (addRelation_removeRelation_roundtrip Sample.store Sample.d1
              Sample.bob "R9" Sample.linkAB
              sample_d1_live (or_intror sample_bob_shares_d1) eq_refl eq_refl)
    as (D1 & D2 & Hadd & Hdel & _ & _ & _ & Hback).
  exists D1, D2. split; [exact Hadd|]. split; [exact Hdel|].
  exact (Hback (ex_intro _ Sample.rels eq_refl)).
Defined.

(** [X12] For a stored diagram and a caller with access,
    [updateRelation] fails with the generic error "Relation not found"
    when [relationId] is not a key of the relations map and is not the
    name of a member every object inherits. When it is a key, each of
    [from], [to] and [type] takes the value of the patch where it gives
    one and keeps its own where it does not; the endpoints are not
    checked against the elements, and the other relations and all
    elements are unchanged. *)
Theorem updateRelation_merges (s : Store) (D : Diagram) (U : User)
    (relationId : string) (relationData : RelationPatch) :
  live s D → may_access D U →
  (relation_at D relationId = None → inherited relationId = false →
     updateRelation (d_id D) relationId relationData U s
       = (Err (Error "Relation not found"), s)) ∧
  (∀ old, relation_at D relationId = Some old →
     ∃ D' new,
       updateRelation (d_id D) relationId relationData U s
         = (Ok D', saved D' s) ∧
       same_header D D' ∧
       relation_at D' relationId = Some new ∧
       rel_from new = match rp_from relationData with
                      | Some v => Some v
                      | None => rel_from old
                      end ∧
       rel_to new = match rp_to relationData with
                    | Some v => Some v
                    | None => rel_to old
                    end ∧
       rel_type new = match rp_type relationData with
                      | Some v => Some v
                      | None => rel_type old
                      end ∧
       (∀ r, r ≠ relationId → relation_at D' r = relation_at D r) ∧
       (∀ k, element_at D' k = element_at D k)).
Proof.
  intros HD HU. split.
  - intros Hr Hk. apply (updateRelation_undefined s D U HD HU).
    by apply relation_get_undefined.
  - intros old Hr. eexists _, (merge_relation old relationData).
    split; [by apply (updateRelation_run s D U HD HU)|].
    split_and!.
    + apply same_header_with_relations.
    + rewrite relation_at_replaced by eauto. by rewrite decide_True.
    + done.
    + done.
    + done.
    + intros r Hne. rewrite relation_at_replaced by eauto.
      by rewrite decide_False.
    + intros k. apply element_at_with_relations.
Qed.

(** On the sample store: Bob redirects R1 to the unknown element
    "nowhere"; its source and its type stay. *)
Lemma updateRelation_merges_witness :
  updateRelation 1 "R9" (mkRelationPatch None (Some "nowhere") None)
                 Sample.bob Sample.store
    = (Err (Error "Relation not found"), Sample.store) ∧
  ∃ D', updateRelation 1 "R1" (mkRelationPatch None (Some "nowhere") None)
                       Sample.bob Sample.store
          = (Ok D', saved D' Sample.store) ∧
        relation_at D' "R1"
          = Some (mkRelation (Some "A") (Some "nowhere") (Some "composition")).
Proof.
  destruct (updateRelation_merges Sample.store Sample.d1 Sample.bob "R9"
              (mkRelationPatch None (Some "nowhere") None)
              sample_d1_live (or_intror sample_bob_shares_d1)) as [Hfail _].
  destruct (updateRelation_merges Sample.store Sample.d1 Sample.bob "R1"
              (mkRelationPatch None (Some "nowhere") None)
              sample_d1_live (or_intror sample_bob_shares_d1)) as [_ Hok].
  split; [exact (Hfail eq_refl eq_refl)|].
  destruct (Hok Sample.R1 eq_refl) as (D' & new & Hrun & _).
  exists D'. split; [exact Hrun|].
  injection Hrun as <-. reflexivity.
Defined.

(** ** What an operation leaves alone *)

Lemma relations_with_elements d f :
  relations (content (with_elements d f)) = relations (content d).
Proof. unfold with_elements. by destruct (elements (content d)). Qed.

Lemma run_frame (op : Op) (s : Store) (D : Diagram) (U : User)
    (d' : Diagram) (s' : Store) :
  live s D → run op (d_id D) U s = (Ok d', s') →
  s' = saved d' s ∧
  (patch_id op = None → d_id d' = d_id D) ∧
  (is_document_op op → same_header D d') ∧
  (is_element_op op → relations (content d') = relations (content D)) ∧
  (is_relation_op op → elements (content d') = elements (content D)).
Proof.
  intros [HD Hdel] Hrun.
  destruct op; simpl in Hrun; unfold_service_in Hrun;
    rewrite findOne_unfold, HD, Hdel in Hrun;
    destruct (hasAccess D U); simpl in Hrun; try discriminate;
    split_run_in Hrun; try discriminate;
    injection Hrun as <- <-; simpl;
    (split; [reflexivity|]); split_and!; intros Hp; try done;
    simpl in *;
    rewrite ?relations_with_elements, ?elements_with_relations,
      ?d_id_with_elements, ?d_id_with_relations;
    try done;
    try (by rewrite Hp);
    eauto using same_header_set_content, same_header_with_elements,
      same_header_with_relations, same_header_trans.
Qed.

(** [X13] The operations on the document (everything but [update],
    [remove] and [shareDiagram]) change nothing but the content: the
    returned diagram has the id, name, owner, shared users and removal
    mark it had, so exactly the same users have access after the call. *)
Theorem document_ops_touch_content_only (op : Op) (s : Store) (D : Diagram)
    (U : User) (d' : Diagram) (s' : Store) :
  live s D → is_document_op op → run op (d_id D) U s = (Ok d', s') →
  d_id d' = d_id D ∧ d_name d' = d_name D ∧ owner d' = owner D ∧
  sharedWith d' = sharedWith D ∧ deleted d' = deleted D ∧
  (∀ V, hasAccess d' V = hasAccess D V) ∧
  live s' d'.
Proof.
  intros HD Hop Hrun.
  destruct (run_frame op s D U d' s' HD Hrun) as (-> & _ & Hhd & _).
  destruct (Hhd Hop) as (Hid & Hn & Ho & Hsh & Hdel).
  split_and!; try done.
  - intros V. unfold hasAccess. by rewrite Ho, Hsh.
  - apply saved_live. rewrite Hdel. apply HD.
Qed.

(** Bob removes class A of the sample diagram: Alice still owns the
    result and Bob still shares it. *)
Lemma document_ops_touch_content_only_witness :
  ∃ d', run (RemoveClass "A") 1 Sample.bob Sample.store
          = (Ok d', saved d' Sample.store) ∧
        owner d' = Sample.alice ∧ sharedWith d' = [Sample.bob] ∧
        hasAccess d' Sample.carol = false.
Proof.
  set (d' := with_elements (with_relations Sample.d1 (cascade "A")) (delete "A")).
  assert (Hrun : run (RemoveClass "A") 1 Sample.bob Sample.store
                 = (Ok d', saved d' Sample.store)) by (vm_compute; reflexivity).
  exists d'. split; [exact Hrun|].
  destruct (document_ops_touch_content_only (RemoveClass "A") Sample.store
              Sample.d1 Sample.bob _ _ sample_d1_live I Hrun)
    as (_ & _ & Ho & Hsh & _ & Hacc & _).
  split; [exact Ho|]. split; [exact Hsh|]. exact (Hacc Sample.carol).
Defined.

(** [X14] The operations on elements and attributes ([updateElement],
    [moveElement], [addClass], [addAttribute], [updateAttribute],
    [removeAttribute]) leave the relations map as it is, and the
    operations on relations ([addRelation], [updateRelation],
    [removeRelation]) leave the elements map as it is. Only
    [removeClass] edits both. *)
Theorem element_and_relation_ops_are_separate (op : Op) (s : Store)
    (D : Diagram) (U : User) (d' : Diagram) (s' : Store) :
  live s D → run op (d_id D) U s = (Ok d', s') →
  (is_element_op op → relations (content d') = relations (content D)) ∧
  (is_relation_op op → elements (content d') = elements (content D)).
Proof.
  intros HD Hrun.
  destruct (run_frame op s D U d' s' HD Hrun) as (_ & _ & _ & He & Hr).
  by split.
Qed.

(** On the sample store: adding a class keeps the three relations, and
    removing a relation keeps the three classes. *)
Lemma element_and_relation_ops_are_separate_witness :
  (∃ d', run (AddClass "D" (mkClassData "Door" (mkPosition 3 3) None))
             1 Sample.bob Sample.store = (Ok d', saved d' Sample.store) ∧
         relations (content d') = Some Sample.rels) ∧
  (∃ d', run (RemoveRelation "R1") 1 Sample.bob Sample.store
           = (Ok d', saved d' Sample.store) ∧
         elements (content d') = Some Sample.elems).
Proof.
  split.
  - set (d' := set_elements Sample.d1
                 (<["D" := mkElement (Some "Door") (Some (mkPosition 3 3))
                                     (Some [])]> Sample.elems)).
    assert (Hrun : run (AddClass "D" (mkClassData "Door" (mkPosition 3 3) None))
                       1 Sample.bob Sample.store
                   = (Ok d', saved d' Sample.store)) by (vm_compute; reflexivity).
    exists d'. split; [exact Hrun|].
    apply (element_and_relation_ops_are_separate _ Sample.store Sample.d1
             Sample.bob _ _ sample_d1_live Hrun). exact I.
  - set (d' := with_relations Sample.d1 (delete "R1")).
    assert (Hrun : run (RemoveRelation "R1") 1 Sample.bob Sample.store
                   = (Ok d', saved d' Sample.store)) by (vm_compute; reflexivity).
    exists d'. split; [exact Hrun|].
    apply (element_and_relation_ops_are_separate _ Sample.store Sample.d1
             Sample.bob _ _ sample_d1_live Hrun). exact I.
Defined.

(** [X15] An operation on one diagram, given no patch with an [id]
    property, touches no other row: whether it fails or succeeds, every
    diagram stored under another id is as before, and so is the user
    table. *)
Theorem other_rows_untouched (op : Op) (s : Store) (D : Diagram) (U : User)
    (r : Result Diagram) (s' : Store) :
  live s D → patch_id op = None → run op (d_id D) U s = (r, s') →
  usersRepository s' = usersRepository s ∧
  (∀ j, j ≠ d_id D → diagramsRepository s' !! j = diagramsRepository s !! j).
Proof.
  intros HD Hp Hrun. destruct r as [d'|e].
  - destruct (run_frame op s D U d' s' HD Hrun) as (-> & Hid & _).
    split; [done|]. intros j Hj. simpl.
    rewrite (Hid Hp). by apply lookup_insert_ne.
  - destruct (run_cases op (d_id D) U s) as [[e' H]|(d & d' & _ & H & _)];
      rewrite H in Hrun; [|discriminate].
    by injection Hrun as _ <-.
Qed.

(** Bob edits diagram 1 of the sample store; diagram 2 is as before. *)
Lemma other_rows_untouched_witness :
  diagramsRepository
    (snd (run (RemoveClass "A") 1 Sample.bob Sample.store)) !! 2%Z
  = Some Sample.d2.
Proof.
  destruct (other_rows_untouched (RemoveClass "A") Sample.store Sample.d1
              Sample.bob _ _ sample_d1_live eq_refl (surjective_pairing _))
    as [_ Hrows].
  transitivity (diagramsRepository Sample.store !! 2%Z); [|reflexivity].
  exact (Hrows 2%Z ltac:(discriminate)).
Defined.

(** ** Referential integrity of the relations *)

Lemma well_linked_mono (D d' : Diagram) :
  (∀ r rel, relation_at d' r = Some rel → relation_at D r = Some rel) →
  (∀ k, is_Some (element_at D k) → is_Some (element_at d' k)) →
  well_linked D → well_linked d'.
Proof.
  intros Hrel Hel Hwl r rel Hr.
  destruct (Hwl r rel (Hrel r rel Hr)) as [(kf & Hf & Hef) (kt & Ht & Het)].
  split; [exists kf | exists kt]; (split; [done | by apply Hel]).
Qed.

Lemma well_linked_content (D d' : Diagram) :
  content d' = content D → well_linked D → well_linked d'.
Proof.
  intros Hc. apply well_linked_mono; intros ?; unfold relation_at, element_at;
    by rewrite Hc.
Qed.

Lemma well_linked_set_element (D : Diagram) (k : string) (e : Element) :
  well_linked D →
  well_linked (set_elements D (js_set (default ∅ (elements (content D))) k e)).
Proof.
  apply well_linked_mono; [done|].
  intros j Hj. rewrite element_at_set_elements.
  apply js_set_keeps. by rewrite elements_or_empty.
Qed.

Lemma well_linked_replace_element (D : Diagram) (k : string) (e : Element) :
  well_linked D → well_linked (with_elements D (<[k := e]>)).
Proof.
  apply well_linked_mono.
  - intros r rel. by rewrite relation_at_with_elements.
  - intros j Hj. rewrite element_at_with_elements.
    unfold element_at in Hj. destruct (elements (content D)) as [es|]; [|done].
    destruct (decide (j = k)) as [->|Hne].
    + rewrite lookup_insert_eq. eauto.
    + by rewrite lookup_insert_ne.
Qed.

Lemma well_linked_delete_relation (D : Diagram) (k : string) :
  well_linked D → well_linked (with_relations D (delete k)).
Proof.
  apply well_linked_mono.
  - intros r rel. rewrite relation_at_deleted. by destruct (decide (r = k)).
  - intros j. by rewrite element_at_with_relations.
Qed.

Lemma well_linked_remove_class (D : Diagram) (classId : string) :
  well_linked D →
  well_linked (with_elements (with_relations D (cascade classId))
                             (delete classId)).
Proof.
  intros Hwl r rel Hr.
  rewrite relation_at_with_elements, relation_at_with_relations in Hr.
  assert (Hold : relation_at D r = Some rel ∧ ¬ references rel classId).
  { unfold relation_at. destruct (relations (content D)) as [rs|]; [|done].
    rewrite cascade_lookup in Hr. destruct (rs !! r) as [rel0|]; [|done].
    simpl in Hr.
    destruct (bool_decide (rel_from rel0 = Some classId)
              || bool_decide (rel_to rel0 = Some classId)) eqn:E; [done|].
    injection Hr as ->. split; [done|].
    apply orb_false_iff in E as [E1 E2].
    apply bool_decide_eq_false in E1, E2. by intros [H|H]. }
  destruct Hold as [Hrel Hnot].
  destruct (Hwl r rel Hrel) as [(kf & Hf & Hef) (kt & Ht & Het)].
  assert (Hkeep : ∀ k, k ≠ classId → is_Some (element_at D k) →
            is_Some (element_at (with_elements
                       (with_relations D (cascade classId)) (delete classId)) k)).
  { intros k Hk Hs. rewrite element_at_with_elements, elements_with_relations.
    unfold element_at in Hs. destruct (elements (content D)) as [es|]; [|done].
    by rewrite lookup_delete_ne. }
  split; [exists kf | exists kt]; (split; [done|]); apply Hkeep; try done;
    intros ->; apply Hnot; [by left | by right].
Qed.

(** [X16] Say a diagram is well linked when both endpoints of each of
    its relations are elements of it. Every operation that neither
    writes a relation record ([addRelation], [updateRelation]) nor
    replaces the content ([update] with a [content] property) returns a
    well-linked diagram when given one; this includes [removeClass],
    thanks to its cascade. *)
Theorem links_preserved (op : Op) (s : Store) (D : Diagram) (U : User)
    (d' : Diagram) (s' : Store) :
  live s D → keeps_links op → well_linked D →
  run op (d_id D) U s = (Ok d', s') → well_linked d'.
Proof.
  intros [HD Hdel] Hop Hwl Hrun.
  destruct op; simpl in Hop; try contradiction;
    simpl in Hrun; unfold_service_in Hrun;
    rewrite findOne_unfold, HD, Hdel in Hrun;
    destruct (hasAccess D U); simpl in Hrun; try discriminate;
    split_run_in Hrun; try discriminate;
    injection Hrun as <- <-;
    eauto using well_linked_set_element, well_linked_replace_element,
      well_linked_delete_relation, well_linked_remove_class.
  apply (well_linked_content D); [|done]. simpl. by rewrite Hop.
Qed.

Lemma sample_d1_well_linked : well_linked Sample.d1.
Proof.
  intros r rel Hr. unfold relation_at in Hr. simpl in Hr.
  unfold Sample.rels in Hr.
  repeat (apply lookup_insert_Some in Hr as [[_ <-]|[_ Hr]];
          [split; eexists; (split; [reflexivity | eexists; reflexivity])|]).
  by rewrite lookup_empty in Hr.
Qed.

(** The sample diagram is well linked, and still is after Bob removes
    class A, to which R1 and R2 were attached. *)
Lemma links_preserved_witness :
  well_linked Sample.d1 ∧
  ∃ d', run (RemoveClass "A") 1 Sample.bob Sample.store
          = (Ok d', saved d' Sample.store) ∧
        element_at d' "A" = None ∧ well_linked d'.
Proof.
  split; [exact sample_d1_well_linked|].
  set (d' := with_elements (with_relations Sample.d1 (cascade "A")) (delete "A")).
  assert (Hrun : run (RemoveClass "A") 1 Sample.bob Sample.store
                 = (Ok d', saved d' Sample.store)) by (vm_compute; reflexivity).
  exists d'. split; [exact Hrun|]. split; [reflexivity|].
  exact (links_preserved (RemoveClass "A") Sample.store Sample.d1 Sample.bob
           d' _ sample_d1_live I sample_d1_well_linked Hrun).
Defined.


(** ** How calls compose *)

(** [X18] [update] with a patch of name and content only overwrites
    each of the two where the patch gives it, the content as a whole,
    and keeps the rest of the diagram. It is idempotent: the same call
    again returns the same diagram and leaves the same store. *)
Theorem update_idempotent (s : Store) (D : Diagram) (U : User)
    (dto : DiagramDto) :
  live s D → may_access D U →
  dto_id dto = None → dto_owner dto = None →
  dto_sharedWith dto = None → dto_deleted dto = None →
  ∃ D', update (d_id D) dto U s = (Ok D', saved D' s) ∧
    d_name D' = match dto_name dto with
                | Some n => n
                | None => d_name D
                end ∧
    content D' = match dto_content dto with
                 | Some c => c
                 | None => content D
                 end ∧
    d_id D' = d_id D ∧ owner D' = owner D ∧
    sharedWith D' = sharedWith D ∧ deleted D' = deleted D ∧
    update (d_id D) dto U (saved D' s) = (Ok D', saved D' s).
Proof.
  intros HD HU Hid Hown Hsh Hdel. exists (assign D dto).
  assert (Hhd : d_id (assign D dto) = d_id D ∧ owner (assign D dto) = owner D ∧
                sharedWith (assign D dto) = sharedWith D ∧
                deleted (assign D dto) = deleted D).
  { unfold assign. simpl. by rewrite Hid, Hown, Hsh, Hdel. }
  destruct Hhd as (Hi & Ho & Hs & Hd).
  split_and!; try done.
  - unfold update, bind. by rewrite (findOne_live s D U HD HU).
  - unfold update, bind. rewrite <- Hi.
    rewrite (findOne_live (saved (assign D dto) s) (assign D dto) U).
    + assert (Hagain : assign (assign D dto) dto = assign D dto).
      { unfold assign. simpl.
        by destruct (dto_id dto), (dto_name dto), (dto_owner dto),
             (dto_sharedWith dto), (dto_content dto), (dto_deleted dto). }
      rewrite Hagain. unfold save. f_equal.
      apply (saved_twice (assign D dto) (assign D dto) s eq_refl).
    + apply saved_live. rewrite Hd. apply HD.
    + unfold may_access, is_owner, is_shared in *. by rewrite Ho, Hs.
Qed.

(** Bob renames the sample diagram twice with the same patch. *)
Lemma update_idempotent_witness :
  ∃ D', update 1 (mkDiagramDto None (Some "Renamed") None None None None)
               Sample.bob Sample.store = (Ok D', saved D' Sample.store) ∧
        d_name D' = "Renamed" ∧ content D' = content Sample.d1 ∧
        update 1 (mkDiagramDto None (Some "Renamed") None None None None)
               Sample.bob (saved D' Sample.store)
          = (Ok D', saved D' Sample.store).
Proof.
  destruct (update_idempotent Sample.store Sample.d1 Sample.bob
              (mkDiagramDto None (Some "Renamed") None None None None)
              sample_d1_live (or_intror sample_bob_shares_d1)
              eq_refl eq_refl eq_refl eq_refl)
    as (D' & Hrun & Hn & Hc & _ & _ & _ & _ & Hagain).
  exists D'. split; [exact Hrun|]. split; [exact Hn|].
  split; [exact Hc | exact Hagain].
Defined.

Lemma merge_element_idempotent (e data : Element) :
  merge_element (merge_element e data) data = merge_element e data.
Proof.
  unfold merge_element. simpl.
  by destruct (el_name data), (el_position data), (el_attributes data).
Qed.

(** [X19] [updateElement] is idempotent: for a stored diagram and a
    caller with access, the same call again returns the same diagram and
    leaves the same store. *)
Theorem updateElement_idempotent (s : Store) (D : Diagram) (U : User)
    (elementId : string) (elementData : Element) :
  live s D → may_access D U →
  ∃ D', updateElement (d_id D) elementId elementData U s
          = (Ok D', saved D' s) ∧
        updateElement (d_id D) elementId elementData U (saved D' s)
          = (Ok D', saved D' s).
Proof.
  intros HD HU.
  set (es := default ∅ (elements (content D))).
  destruct (decide (is_Some (element_at D elementId) ∨ elementId ≠ "__proto__"))
    as [Hk|Hk].
  - set (m := merge_element (element_or_empty D elementId) elementData).
    set (D' := set_elements D (<[elementId := m]> es)).
    assert (H1 : same_header D D') by apply same_header_set_content.
    assert (He : element_at D' elementId = Some m).
    { unfold D'. rewrite element_at_set_elements. apply lookup_insert_eq. }
    exists D'. split; [by apply (updateElement_run s D U HD HU)|].
    replace (d_id D) with (d_id D') by apply H1.
    rewrite (updateElement_run (saved D' s) D' U
               (header_live s D HD D' H1) (header_access D U HU D' H1))
      by (left; rewrite He; eauto).
    assert (Hsame : set_elements D'
              (<[elementId := merge_element (element_or_empty D' elementId)
                                            elementData]>
                 (default ∅ (elements (content D')))) = D').
    { unfold element_or_empty. rewrite He. simpl.
      replace (merge_element m elementData) with m
        by (symmetry; apply merge_element_idempotent).
      change (set_elements D (<[elementId := m]> (<[elementId := m]> es))
              = set_elements D (<[elementId := m]> es)).
      by rewrite insert_insert_eq. }
    rewrite Hsame. f_equal. by apply saved_twice.
  - assert (elementId = "__proto__") as ->.
    { destruct (decide (elementId = "__proto__")); [done|]. destruct Hk. eauto. }
    assert (He : element_at D "__proto__" = None).
    { destruct (element_at D "__proto__") eqn:E; [|done]. destruct Hk. eauto. }
    set (D' := set_elements D es).
    assert (H1 : same_header D D') by apply same_header_set_content.
    exists D'. split; [by apply (updateElement_proto s D U HD HU)|].
    replace (d_id D) with (d_id D') by apply H1.
    rewrite (updateElement_proto (saved D' s) D' U
               (header_live s D HD D' H1) (header_access D U HU D' H1)).
    + change (set_elements D' (default ∅ (elements (content D')))) with D'.
      f_equal. by apply saved_twice.
    + unfold D'. rewrite element_at_set_elements. unfold es.
      by rewrite elements_or_empty.
Qed.

(** Bob moves class A of the sample diagram to the same place twice. *)
Lemma updateElement_idempotent_witness :
  ∃ D', updateElement 1 "A" (mkElement None (Some (mkPosition 7 7)) None)
                      Sample.bob Sample.store
          = (Ok D', saved D' Sample.store) ∧
        updateElement 1 "A" (mkElement None (Some (mkPosition 7 7)) None)
                      Sample.bob (saved D' Sample.store)
          = (Ok D', saved D' Sample.store).
Proof.
  exact (updateElement_idempotent Sample.store Sample.d1 Sample.bob "A"
           (mkElement None (Some (mkPosition 7 7)) None)
           sample_d1_live (or_intror sample_bob_shares_d1)).
Defined.

(** [X20] [updateElement] (and so [moveElement]) on an id that is not a
    key of the elements map, and is not ["__proto__"], takes that id:
    whatever the element data, also none at all, a later [addClass] with
    the same id fails with "Class already exists". *)
Theorem updateElement_takes_the_id (s : Store) (D : Diagram) (U : User)
    (elementId : string) (elementData : Element) :
  live s D → may_access D U → element_at D elementId = None →
  elementId ≠ "__proto__" →
  ∃ D', updateElement (d_id D) elementId elementData U s
          = (Ok D', saved D' s) ∧
        element_at D' elementId = Some elementData ∧
        ∀ classData,
          addClass (d_id D) elementId classData U (saved D' s)
            = (Err (Error "Class already exists"), saved D' s).
Proof.
  intros HD HU He Hk.
  set (D' := set_elements D
               (<[elementId := merge_element (element_or_empty D elementId)
                                             elementData]>
                  (default ∅ (elements (content D))))).
  assert (H1 : same_header D D') by apply same_header_set_content.
  assert (Hnew : element_at D' elementId = Some elementData).
  { unfold D'. rewrite element_at_set_elements, lookup_insert_eq.
    unfold element_or_empty. rewrite He.
    by destruct elementData as [[?|] [?|] [?|]]. }
  exists D'. split; [by apply (updateElement_run s D U HD HU); right|].
  split; [exact Hnew|]. intros classData.
  replace (d_id D) with (d_id D') by apply H1.
  apply (addClass_duplicate (saved D' s) D' U
           (header_live s D HD D' H1) (header_access D U HU D' H1)).
  by rewrite Hnew.
Qed.

(** On the blank sample diagram Alice moves the unknown element "c1";
    adding class "c1" then fails. *)
Lemma updateElement_takes_the_id_witness :
  ∃ D', moveElement 2 "c1" (mkPosition 5 5) Sample.alice Sample.store
          = (Ok D', saved D' Sample.store) ∧
        addClass 2 "c1" (mkClassData "Car" (mkPosition 0 0) None)
                 Sample.alice (saved D' Sample.store)
          = (Err (Error "Class already exists"), saved D' Sample.store).
Proof.
  destruct (updateElement_takes_the_id Sample.store Sample.d2 Sample.alice
              "c1" (mkElement None (Some (mkPosition 5 5)) None)
              sample_d2_live (or_introl eq_refl) eq_refl ltac:(discriminate))
    as (D' & Hrun & _ & Hblocked).
  exists D'. split; [exact Hrun | apply Hblocked].
Defined.

(** [X21] The id of a removed class is free again, unless it is the
    name of a member every object inherits: after [removeClass],
    [addClass] with the same id succeeds and stores the new record. The
    relations the old class had are not brought back: no relation of the
    resulting diagram has that id as [from] or [to]. *)
Theorem removeClass_frees_the_id (s : Store) (D : Diagram) (U : User)
    (classId : string) (classData : ClassData) :
  live s D → may_access D U → is_Some (element_at D classId) →
  inherited classId = false →
  ∃ D1 D2,
    removeClass (d_id D) classId U s = (Ok D1, saved D1 s) ∧
    addClass (d_id D) classId classData U (saved D1 s)
      = (Ok D2, saved D2 (saved D1 s)) ∧
    element_at D2 classId
      = Some (mkElement (Some (cd_name classData))
                        (Some (cd_position classData))
                        (Some (default [] (cd_attributes classData)))) ∧
    (∀ r rel, relation_at D2 r = Some rel → ¬ references rel classId).
Proof.
  intros HD HU [e He] Hk.
  set (D1 := with_elements (with_relations D (cascade classId))
                           (delete classId)).
  assert (H1 : same_header D D1).
  { eapply same_header_trans;
      [apply same_header_with_relations | apply same_header_with_elements]. }
  assert (Hgone : element_at D1 classId = None).
  { unfold D1. rewrite element_at_with_elements, elements_with_relations.
    destruct (elements (content D)); [apply lookup_delete_eq | done]. }
  eexists D1, _. split.
  { apply (removeClass_run s D U HD HU).
    rewrite (element_get_own D classId e He). eauto. }
  split.
  { replace (d_id D) with (d_id D1) by apply H1.
    by apply (addClass_fresh (saved D1 s) D1 U
                (header_live s D HD D1 H1) (header_access D U HU D1 H1)). }
  split; [rewrite element_at_set_elements; apply lookup_insert_eq|].
  intros r rel. rewrite relation_at_set_elements. unfold D1.
  rewrite relation_at_with_elements, relation_at_with_relations.
  destruct (relations (content D)) as [rs|]; [|done].
  rewrite cascade_lookup. intros Hkept Href.
  destruct (rs !! r) as [rel0|]; [|done]. simpl in Hkept.
  destruct (bool_decide (rel_from rel0 = Some classId)
            || bool_decide (rel_to rel0 = Some classId)) eqn:E; [done|].
  injection Hkept as ->. apply orb_false_iff in E as [E1 E2].
  apply bool_decide_eq_false in E1, E2. by destruct Href.
Qed.

(** On the sample store: Bob removes class A and adds a class A again;
    R1 and R2 stay removed. *)
Lemma removeClass_frees_the_id_witness :
  ∃ D1 D2,
    removeClass 1 "A" Sample.bob Sample.store = (Ok D1, saved D1 Sample.store) ∧
    addClass 1 "A" (mkClassData "Truck" (mkPosition 1 1) None)
             Sample.bob (saved D1 Sample.store)
      = (Ok D2, saved D2 (saved D1 Sample.store)) ∧
    element_at D2 "A"
      = Some (mkElement (Some "Truck") (Some (mkPosition 1 1)) (Some [])) ∧
    relation_at D2 "R1" = None ∧ relation_at D2 "R3" = Some Sample.R3.
Proof.
  destruct (removeClass_frees_the_id Sample.store Sample.d1 Sample.bob "A"
              (mkClassData "Truck" (mkPosition 1 1) None)
              sample_d1_live (or_intror sample_bob_shares_d1)
              (ex_intro _ Sample.classA eq_refl) eq_refl)
    as (D1 & D2 & Hrm & Hadd & Hnew & _).
  exists D1, D2. split; [exact Hrm|]. split; [exact Hadd|]. split; [exact Hnew|].
  injection Hrm as <-. injection Hadd as <-. split; reflexivity.
Defined.

(** ** The listing queries *)

Lemma elem_of_visible_rows (s : Store) (d : Diagram) :
  d ∈ visible_rows s ↔
  deleted d = false ∧ ∃ k, diagramsRepository s !! k = Some d.
Proof.
  unfold visible_rows.
  rewrite list_elem_of_In, filter_In, <- list_elem_of_In, list_elem_of_fmap.
  rewrite negb_true_iff. split.
  - intros [([k d0] & -> & Hin) Hdel]. split; [done|].
    exists k. by apply elem_of_map_to_list.
  - intros [Hdel [k Hk]]. split; [|done].
    exists (k, d). split; [done|]. by apply elem_of_map_to_list.
Qed.

Lemma visible_row_live (s : Store) (d : Diagram) :
  well_keyed s → d ∈ visible_rows s ↔ live s d.
Proof.
  intros Hwk. rewrite elem_of_visible_rows. split.
  - intros [Hdel [k Hk]]. split; [|done]. by rewrite (Hwk k d Hk).
  - intros [Hl Hdel]. eauto.
Qed.

Lemma elem_of_members (userId : Z) (l : list User) (u : User) :
  u ∈ List.filter (λ u, bool_decide (u_id u = userId)) l ↔
  u ∈ l ∧ u_id u = userId.
Proof.
  by rewrite list_elem_of_In, filter_In, <- list_elem_of_In,
       bool_decide_eq_true.
Qed.

(** [X22] On a table whose rows are stored under their own ids,
    [findAllByUser] lists exactly the diagrams that are not soft-removed
    and whose owner has the given id, each without its [sharedWith]; a
    diagram the user only shares is not listed. The store is unchanged,
    and the user can read every listed diagram with [findOne]. *)
Theorem findAllByUser_lists_owned (userId : Z) (s : Store) :
  well_keyed s →
  ∃ rows, findAllByUser userId s = (Ok rows, s) ∧
    (∀ D, live s D → u_id (owner D) = userId →
          without_sharedWith D ∈ rows) ∧
    (∀ row, row ∈ rows →
       ∃ D, live s D ∧ u_id (owner D) = userId ∧
            row = without_sharedWith D ∧
            ∀ U, u_id U = userId → findOne (od_id row) U s = (Ok D, s)).
Proof.
  intros Hwk. eexists. split; [reflexivity|]. split.
  - intros D HD Hown. apply list_elem_of_fmap. exists D. split; [done|].
    apply list_elem_of_In, filter_In. split.
    + by apply list_elem_of_In, visible_row_live.
    + by apply bool_decide_eq_true.
  - intros row (D & -> & Hin)%list_elem_of_fmap.
    apply list_elem_of_In, filter_In in Hin as [Hin Hown].
    apply list_elem_of_In, (visible_row_live s _ Hwk) in Hin.
    apply bool_decide_eq_true in Hown.
    eexists. split_and!; [exact Hin | exact Hown | reflexivity |].
    intros U HU. apply (findOne_live s _ U Hin). left.
    unfold is_owner. simpl. by rewrite HU.
Qed.

Lemma sample_store_well_keyed : well_keyed Sample.store.
Proof.
  intros k d Hk. unfold Sample.store in Hk. simpl in Hk.
  repeat (apply lookup_insert_Some in Hk as [[<- <-]|[_ Hk]]; [reflexivity|]).
  by rewrite lookup_empty in Hk.
Qed.

(** Alice owns both sample diagrams; Bob, who shares diagram 1, owns
    none, so nothing Bob is listed has id 1. *)
Lemma findAllByUser_lists_owned_witness :
  (∃ rows, findAllByUser 1 Sample.store = (Ok rows, Sample.store) ∧
           without_sharedWith Sample.d1 ∈ rows ∧
           without_sharedWith Sample.d2 ∈ rows) ∧
  (∃ rows, findAllByUser 2 Sample.store = (Ok rows, Sample.store) ∧
           ∀ row, row ∈ rows → od_owner row ≠ Sample.alice).
Proof.
  split.
  - destruct (findAllByUser_lists_owned 1 Sample.store sample_store_well_keyed)
      as (rows & Hrun & Hin & _).
    exists rows. split; [exact Hrun|].
    split; [exact (Hin Sample.d1 sample_d1_live eq_refl)
           | exact (Hin Sample.d2 sample_d2_live eq_refl)].
  - destruct (findAllByUser_lists_owned 2 Sample.store sample_store_well_keyed)
      as (rows & Hrun & _ & Hout).
    exists rows. split; [exact Hrun|].
    intros row Hrow. destruct (Hout row Hrow) as (D & _ & Hown & -> & _).
    simpl. intros Heq. rewrite Heq in Hown. discriminate Hown.
Defined.

(** [X23] On a table whose rows are stored under their own ids,
    [findShared] lists the diagrams that are not soft-removed and have a
    member with the given id in [sharedWith], and only those: owning a
    diagram does not list it. A listed diagram carries its owner and
    content, and of its shared users those with the given id. The store
    is unchanged, and the user can read every listed diagram with
    [findOne], which returns it with all its shared users. *)
Theorem findShared_lists_shared (userId : Z) (s : Store) :
  well_keyed s →
  ∃ ds, findShared userId s = (Ok ds, s) ∧
    (∀ D, live s D → (∃ u, u ∈ sharedWith D ∧ u_id u = userId) →
          ∃ d, d ∈ ds ∧ d_id d = d_id D) ∧
    (∀ d, d ∈ ds →
       ∃ D, live s D ∧
            d_id d = d_id D ∧ d_name d = d_name D ∧ owner d = owner D ∧
            content d = content D ∧
            (∀ u, u ∈ sharedWith d ↔ u ∈ sharedWith D ∧ u_id u = userId) ∧
            (∃ u, u ∈ sharedWith d) ∧
            ∀ U, u_id U = userId → findOne (d_id d) U s = (Ok D, s)).
Proof.
  intros Hwk. eexists. split; [reflexivity|]. split.
  - intros D HD (u & Hin & Hu).
    destruct (List.filter (λ u, bool_decide (u_id u = userId)) (sharedWith D))
      as [|m ms] eqn:E.
    { assert (Hm : u ∈ List.filter (λ u, bool_decide (u_id u = userId))
                                   (sharedWith D))
        by by apply elem_of_members.
      rewrite E in Hm. by apply elem_of_nil in Hm. }
    exists (set_sharedWith D (m :: ms)). split; [|done].
    apply list_elem_of_omap. exists D.
    split; [by apply visible_row_live|]. by rewrite E.
  - intros d (D & Hin & Hd)%list_elem_of_omap.
    apply (visible_row_live s D Hwk) in Hin.
    destruct (List.filter (λ u, bool_decide (u_id u = userId)) (sharedWith D))
      as [|m ms] eqn:E; [done|].
    injection Hd as <-. exists D. simpl.
    assert (Hm : m ∈ sharedWith D ∧ u_id m = userId).
    { apply elem_of_members. rewrite E. apply list_elem_of_here. }
    split_and!; try done.
    + intros u. rewrite <- E. apply elem_of_members.
    + exists m. apply list_elem_of_here.
    + intros U HU. apply (findOne_live s D U Hin). right.
      exists m. split; [apply Hm|]. rewrite HU. apply Hm.
Qed.

(** The sample diagram 1 is listed for Bob, and nothing is listed for
    Alice, who owns both diagrams and shares none. *)
Lemma findShared_lists_shared_witness :
  (∃ ds d, findShared 2 Sample.store = (Ok ds, Sample.store) ∧
           d ∈ ds ∧ d_id d = 1%Z) ∧
  (∃ ds, findShared 1 Sample.store = (Ok ds, Sample.store) ∧
         ∀ d, d ∉ ds).
Proof.
  split.
  - destruct (findShared_lists_shared 2 Sample.store sample_store_well_keyed)
      as (ds & Hrun & Hin & _).
    destruct (Hin Sample.d1 sample_d1_live sample_bob_shares_d1)
      as (d & Hd & Hid).
    exists ds, d. split; [exact Hrun|]. split; [exact Hd | exact Hid].
  - destruct (findShared_lists_shared 1 Sample.store sample_store_well_keyed)
      as (ds & Hrun & _ & Hout).
    exists ds. split; [exact Hrun|].
    intros d Hd. destruct (Hout d Hd) as (D & [Hl _] & Hid & _ & _ & _ & Hsh & [u Hu] & _).
    apply Hsh in Hu as [Hu Hone].
    unfold Sample.store in Hl. simpl in Hl.
    apply lookup_insert_Some in Hl as [[_ <-]|[_ Hl]].
    { simpl in Hu. apply list_elem_of_singleton in Hu as ->. discriminate Hone. }
    apply lookup_insert_Some in Hl as [[_ <-]|[_ Hl]].
    { simpl in Hu. by apply elem_of_nil in Hu. }
    by rewrite lookup_empty in Hl.
Defined.

(** ** A class and its attributes *)



(** ** Ids that name a member every object inherits *)

Lemma js_get_inherited {A} (o : gmap string A) (k : string) :
  inherited k = true → is_Some (js_get o k).
Proof.
  intros Hk. unfold js_get. destruct (o !! k); [eauto|]. rewrite Hk. eauto.
Qed.

Lemma with_elements_delete_absent (D : Diagram) (k : string) :
  element_at D k = None → with_elements D (delete k) = D.
Proof.
  intros He. unfold with_elements, element_at in *.
  destruct D as [i n o sh [[es|] rs] del]; simpl in *; [|done].
  unfold set_elements, set_content. simpl. by rewrite delete_id.
Qed.

Lemma with_relations_delete_absent (D : Diagram) (k : string) :
  relation_at D k = None → with_relations D (delete k) = D.
Proof.
  intros Hr. unfold with_relations, relation_at in *.
  destruct D as [i n o sh [es [rs|]] del]; simpl in *; [|done].
  unfold set_relations, set_content. simpl. by rewrite delete_id.
Qed.

(** [X29] The names of the members every object inherits ("constructor",
    "toString", "__proto__", ...) are never free: for a stored diagram
    and a caller with access, [addClass] with such an id fails with
    "Class already exists" and [addRelation] with such an id fails with
    "Relation already exists", whether or not the diagram has a record
    under it, and nothing is written. *)
Theorem inherited_names_are_taken (s : Store) (D : Diagram) (U : User)
    (k : string) :
  live s D → may_access D U → inherited k = true →
  (∀ classData,
     addClass (d_id D) k classData U s
       = (Err (Error "Class already exists"), s)) ∧
  (∀ relationData,
     addRelation (d_id D) k relationData U s
       = (Err (Error "Relation already exists"), s)).
Proof.
  intros HD HU Hk. split; intros data.
  - apply (addClass_taken s D U HD HU). by apply js_get_inherited.
  - apply (addRelation_taken s D U HD HU). by apply js_get_inherited.
Qed.

(** On the sample store nobody can add a class "toString" or a relation
    "valueOf". *)
Lemma inherited_names_are_taken_witness :
  addClass 2 "toString" (mkClassData "Car" (mkPosition 0 0) None)
           Sample.alice Sample.store
    = (Err (Error "Class already exists"), Sample.store) ∧
  addRelation 1 "valueOf" Sample.linkAB Sample.bob Sample.store
    = (Err (Error "Relation already exists"), Sample.store).
Proof.
  split.
  - apply (inherited_names_are_taken Sample.store Sample.d2 Sample.alice
             "toString" sample_d2_live (or_introl eq_refl) eq_refl).
  - apply (inherited_names_are_taken Sample.store Sample.d1 Sample.bob
             "valueOf" sample_d1_live (or_intror sample_bob_shares_d1) eq_refl).
Defined.

(** [X30] For a stored diagram, a caller with access and an id that
    names a member every object inherits and is not a key of the map
    concerned, the guards of [removeClass], [addAttribute] and
    [removeRelation] pass. When the diagram has an elements map,
    [addAttribute] (for an id other than ["__proto__"]) returns the
    diagram and leaves the store as they were, and [removeClass]
    succeeds, removes no element and keeps every relation that does not
    have the id as [from] or [to]. When the diagram has a relations map,
    [removeRelation] returns the diagram and leaves the store as they
    were. *)
Theorem guards_pass_for_inherited_names (s : Store) (D : Diagram) (U : User)
    (k : string) :
  live s D → may_access D U → inherited k = true →
  (is_Some (elements (content D)) → element_at D k = None →
     (k ≠ "__proto__" →
      ∀ attribute, addAttribute (d_id D) k attribute U s = (Ok D, s)) ∧
     ∃ D', removeClass (d_id D) k U s = (Ok D', saved D' s) ∧
           same_header D D' ∧
           elements (content D') = elements (content D) ∧
           (∀ r rel, relation_at D r = Some rel → ¬ references rel k →
                     relation_at D' r = Some rel)) ∧
  (is_Some (relations (content D)) → relation_at D k = None →
     removeRelation (d_id D) k U s = (Ok D, s)).
Proof.
  intros HD HU Hk. split.
  - intros [es Hes] He.
    assert (Hget : element_get D k = Some Builtin).
    { unfold element_get, element_at in *. rewrite Hes in *.
      by apply js_get_builtin. }
    split.
    + intros _ attribute.
      rewrite (addAttribute_builtin s D U HD HU k attribute Hget).
      f_equal. apply saved_id, HD.
    + eexists. split.
      { apply (removeClass_run s D U HD HU). rewrite Hget. eauto. }
      split_and!.
      * eapply same_header_trans;
          [apply same_header_with_relations | apply same_header_with_elements].
      * rewrite with_elements_delete_absent
          by by rewrite element_at_with_relations.
        apply elements_with_relations.
      * intros r rel Hr Hnot.
        rewrite relation_at_with_elements, relation_at_with_relations.
        unfold relation_at in Hr.
        destruct (relations (content D)) as [rs|]; [|done].
        rewrite cascade_lookup, Hr. by apply kept_other.
  - intros [rs Hrs] Hr.
    assert (Hget : relation_get D k = Some Builtin).
    { unfold relation_get, relation_at in *. rewrite Hrs in *.
      by apply js_get_builtin. }
    rewrite (removeRelation_run s D U HD HU k) by (rewrite Hget; eauto).
    rewrite with_relations_delete_absent by done.
    f_equal. apply saved_id, HD.
Qed.

(** On the sample store: Bob adds an attribute to "toString", removes
    the relation "valueOf" and removes the class "constructor"; each
    call succeeds and the diagram and the store stay as they were. *)
Lemma guards_pass_for_inherited_names_witness :
  addAttribute 1 "toString" Sample.a0 Sample.bob Sample.store
    = (Ok Sample.d1, Sample.store) ∧
  removeRelation 1 "valueOf" Sample.bob Sample.store
    = (Ok Sample.d1, Sample.store) ∧
  ∃ D', removeClass 1 "constructor" Sample.bob Sample.store
          = (Ok D', saved D' Sample.store) ∧
        elements (content D') = Some Sample.elems ∧
        relation_at D' "R1" = Some Sample.R1.
Proof.
  destruct (guards_pass_for_inherited_names Sample.store Sample.d1 Sample.bob
              "toString" sample_d1_live (or_intror sample_bob_shares_d1) eq_refl)
    as [Hel _].
  destruct (guards_pass_for_inherited_names Sample.store Sample.d1 Sample.bob
              "valueOf" sample_d1_live (or_intror sample_bob_shares_d1) eq_refl)
    as [_ Hrel].
  destruct (guards_pass_for_inherited_names Sample.store Sample.d1 Sample.bob
              "constructor" sample_d1_live (or_intror sample_bob_shares_d1)
              eq_refl) as [Hcls _].
  split; [exact (proj1 (Hel (ex_intro _ Sample.elems eq_refl) eq_refl)
                       ltac:(discriminate) Sample.a0)|].
  split; [exact (Hrel (ex_intro _ Sample.rels eq_refl) eq_refl)|].
  destruct (proj2 (Hcls (ex_intro _ Sample.elems eq_refl) eq_refl))
    as (D' & Hrun & _ & Hsame & Hkeep).
  exists D'. split; [exact Hrun|]. split; [exact Hsame|].
  refine (Hkeep "R1" Sample.R1 eq_refl _).
  intros [H|H]; discriminate H.
Defined.
